(** * buggywug: the debugging session engine

    A shallow embedding of [src/core/errorDetector.ts] (the classifier),
    [src/core/debugEngine.ts] (session store, fix synthesizer, orchestrator)
    and the methods of [src/services/ollamaService.ts] the engine calls,
    followed by the properties the specification claims of them.
    [ErrorDetector.extractTraceback] and [OllamaService.streamResponse] have
    no caller in the engine; they are embedded in the second part of the file.

    Conventions of the embedding.
    - A JavaScript string is a [string]: a sequence of 8-bit characters.  Texts
      made of code units below 256 are covered; the two line terminators
      U+2028 and U+2029 (which [.] also refuses) are outside the model.
    - A [number] holding a confidence is a rational [Q] written as the source
      literal ([0.8], [0.5], ...); a line number or an index is a [Z].
    - [RegExp] values are terms of a small regular-expression syntax, run by a
      backtracking matcher in continuation-passing style, the way ECMA-262
      defines matching: leftmost start, alternatives left to right, greedy
      quantifiers that give characters back on failure.
    - [async]/[await] is sequential composition, one call at a time; a
      rejected promise is [Throw].
    - The collaborators (Ollama client, [exec], [fs], [crypto], clock, console)
      are an [Env]: functions of the history of interactions so far. *)

From Stdlib Require Import QArith Ascii String.
From stdpp Require Import gmap strings list.

Local Open Scope Z_scope.
Local Open Scope string_scope.

(** ** JavaScript strings *)

Module Js.

(** [a || b] on strings: the empty string is the only falsy string. *)
Definition truthy (s : string) : bool :=
  match s with "" => false | String _ _ => true end.

Definition or (a b : string) : string := if truthy a then a else b.

(** [s.startsWith(p)], returning what follows the prefix. *)
Fixpoint strip_prefix (p s : string) : option string :=
  match p with
  | "" => Some s
  | String a p' =>
      match s with
      | "" => None
      | String b s' => if Ascii.eqb a b then strip_prefix p' s' else None
      end
  end.

Definition newline : ascii := "010"%char.
Definition carriage_return : ascii := "013"%char.

(** [s.split('\n')[0]]: the text before the first line feed. *)
Fixpoint first_line (s : string) : string :=
  match s with
  | "" => ""
  | String a s' => if Ascii.eqb a newline then "" else String a (first_line s')
  end.

Definition is_digit (a : ascii) : bool :=
  let n := Ascii.nat_of_ascii a in (48 <=? n)%nat && (n <=? 57)%nat.

Definition digit_value (a : ascii) : Z := Z.of_nat (Ascii.nat_of_ascii a) - 48.

(** White space and line terminators, as [String.prototype.trim] and
    [parseInt] skip them (code units below 256). *)
Definition is_space (a : ascii) : bool :=
  let n := Ascii.nat_of_ascii a in
  ((9 <=? n)%nat && (n <=? 13)%nat) || (n =? 32)%nat || (n =? 160)%nat.

Fixpoint trim_start (s : string) : string :=
  match s with
  | "" => ""
  | String a s' => if is_space a then trim_start s' else s
  end.

Fixpoint trim_end (s : string) : string :=
  match s with
  | "" => ""
  | String a s' =>
      match trim_end s' with
      | "" => if is_space a then "" else String a ""
      | t => String a t
      end
  end.

Definition trim (s : string) : string := trim_end (trim_start s).

(** The digits read by [parseInt(s, 10)], most significant first. *)
Fixpoint digits_from (acc : Z) (s : string) : Z :=
  match s with
  | "" => acc
  | String a s' =>
      if is_digit a then digits_from (10 * acc + digit_value a) s' else acc
  end.

(** [parseInt(s, 10)]; [None] is [NaN].  The result is exact, where the
    source rounds to a double above 2^53. *)
Definition parseInt (s : string) : option Z :=
  let t := trim_start s in
  let '(sign, u) :=
    match t with
    | String "-" u => (-1, u)
    | String "+" u => (1, u)
    | _ => (1, t)
    end in
  match u with
  | String a _ => if is_digit a then Some (sign * digits_from 0 u) else None
  | "" => None
  end.

(** The one-character string holding a double quote. *)
Definition dquote : string := String "034"%char "".

(** A template literal prints [undefined] for a missing value. *)
Definition show (v : option string) : string :=
  match v with Some s => s | None => "undefined" end.

End Js.

(** ** Regular expressions *)

Module RegExp.

(** Character sets of the source's patterns. *)
Inductive cset : Type :=
| Dot                       (* .  : anything but a line terminator *)
| Digit                     (* \d *)
| NoneOf (l : list ascii).  (* [^...] *)

Definition cset_mem (c : cset) (a : ascii) : bool :=
  match c with
  | Dot => negb (Ascii.eqb a Js.newline || Ascii.eqb a Js.carriage_return)
  | Digit => Js.is_digit a
  | NoneOf l => negb (existsb (Ascii.eqb a) l)
  end.

Inductive regex : Type :=
| Lit (l : string)               (* literal text *)
| Plus (c : cset)                (* c+ , greedy *)
| Star (c : cset)                (* c* , greedy *)
| Group (n : nat) (r : regex)    (* the n-th capturing group ( r ) *)
| Seq (r1 r2 : regex)            (* r1 r2 *)
| Alt (r1 r2 : regex)            (* r1 | r2 *)
| Opt (r : regex).               (* (?: r )? , greedy *)

(** The captures recorded so far, latest first. *)
Definition captures : Type := list (nat * string).

Fixpoint capture (n : nat) (c : captures) : option string :=
  match c with
  | [] => None
  | (i, s) :: c' => if Nat.eqb i n then Some s else capture n c'
  end.

(** What [String.prototype.match] returns for a regex without the [g] flag:
    [whole] is [match[0]], [group i] is [match[i]]. *)
Record MatchResult : Type := { whole : string; caps : captures }.

Definition group (i : nat) (m : MatchResult) : option string := capture i (caps m).

(** A continuation receives the text just consumed and the text left. *)
Definition cont : Type := string -> string -> option MatchResult.

(** [c*] from the longest run down to the empty one. *)
Fixpoint star_run (c : cset) (s : string) (k : cont) : option MatchResult :=
  match s with
  | "" => k "" ""
  | String a s' =>
      if cset_mem c a then
        match star_run c s' (fun m rest => k (String a m) rest) with
        | Some x => Some x
        | None => k "" s
        end
      else k "" s
  end.

Definition plus_run (c : cset) (s : string) (k : cont) : option MatchResult :=
  match s with
  | "" => None
  | String a s' =>
      if cset_mem c a then star_run c s' (fun m rest => k (String a m) rest)
      else None
  end.

Fixpoint mt (r : regex) (s : string) (c : captures)
    (k : string -> string -> captures -> option MatchResult) : option MatchResult :=
  match r with
  | Lit l =>
      match Js.strip_prefix l s with
      | Some rest => k l rest c
      | None => None
      end
  | Plus cs => plus_run cs s (fun m rest => k m rest c)
  | Star cs => star_run cs s (fun m rest => k m rest c)
  | Group n r1 => mt r1 s c (fun m rest c' => k m rest ((n, m) :: c'))
  | Seq r1 r2 =>
      mt r1 s c (fun m1 s1 c1 =>
        mt r2 s1 c1 (fun m2 s2 c2 => k (m1 +:+ m2) s2 c2))
  | Alt r1 r2 =>
      match mt r1 s c k with
      | Some x => Some x
      | None => mt r2 s c k
      end
  | Opt r1 =>
      match mt r1 s c k with
      | Some x => Some x
      | None => k "" s c
      end
  end.

(** A match that starts at the first character of [s]. *)
Definition match_here (r : regex) (s : string) : option MatchResult :=
  mt r s [] (fun m _ c => Some {| whole := m; caps := c |}).

(** [s.match(r)]: the match with the leftmost start. *)
Fixpoint exec (r : regex) (s : string) : option MatchResult :=
  match match_here r s with
  | Some x => Some x
  | None =>
      match s with
      | "" => None
      | String _ s' => exec r s'
      end
  end.

Definition matches (r : regex) (s : string) : bool :=
  match exec r s with Some _ => true | None => false end.

(** A pattern written as the sequence of its pieces. *)
Fixpoint cat (l : list regex) : regex :=
  match l with
  | [] => Lit ""
  | [r] => r
  | r :: l' => Seq r (cat l')
  end.

(** [(.+)] as the i-th group. *)
Definition any1 (i : nat) : regex := Group i (Plus Dot).

End RegExp.

Import RegExp.

(** ** Data model ([src/types/index.ts]) *)

Record DebugContext : Type := {
  command : string;
  output : string;
  error : string;
  workingDirectory : string;
  timestamp : Z
}.

Inductive ErrorType : Type :=
| SYNTAX | RUNTIME | TYPE | COMMAND | MODULE | PERMISSION | UNKNOWN.

Record ErrorAnalysis : Type := {
  type : ErrorType;
  message : string;
  file : option string;
  line : option Z;
  suggestion : option string;
  confidence : Q
}.

(** ** The classifier ([src/core/errorDetector.ts]) *)

Module ErrorDetector.

(** [patterns], in the order [Object.entries] lists its keys. *)
Definition patterns : list (ErrorType * list regex) :=
  [ (SYNTAX,
      [ cat [Lit "SyntaxError: "; any1 1];
        cat [Lit "ParseError: "; any1 1];
        cat [Lit "Unexpected token "; any1 1];
        cat [Lit "Unterminated "; any1 1] ]);
    (TYPE,
      [ cat [Lit "TypeError: "; any1 1];
        cat [Lit "Type '"; any1 1; Lit "' is not assignable to type '"; any1 2; Lit "'"];
        cat [Lit "Property '"; any1 1; Lit "' does not exist on type '"; any1 2; Lit "'"] ]);
    (MODULE,
      [ cat [Lit "Cannot find module '"; any1 1; Lit "'"];
        cat [Lit "Module not found: "; any1 1];
        cat [Lit ("Failed to resolve import " +:+ Js.dquote); any1 1; Lit Js.dquote];
        cat [Lit "No module named '"; any1 1; Lit "'"] ]);
    (RUNTIME,
      [ cat [Lit "ReferenceError: "; any1 1];
        cat [Lit "RangeError: "; any1 1];
        Lit "Maximum call stack size exceeded" ]);
    (PERMISSION,
      [ Lit "Permission denied";
        Lit "EACCES: permission denied";
        Lit "Operation not permitted" ]);
    (COMMAND,
      [ cat [Lit "command not found: "; any1 1];
        cat [Lit "bash: "; any1 1; Lit ": command not found"];
        cat [Lit "zsh: command not found: "; any1 1] ]) ].

(** [/(?:at |in |from )(?:.*\()?([^():]+):(\d+)/] *)
Definition fileRe : regex :=
  cat [ Alt (Lit "at ") (Alt (Lit "in ") (Lit "from "));
        Opt (Seq (Star Dot) (Lit "("));
        Group 1 (Plus (NoneOf ["("; ")"; ":"]%char));
        Lit ":";
        Group 2 (Plus Digit) ].

Definition createAnalysis (type : ErrorType) (message fullError : string)
    (detail : option string) : ErrorAnalysis :=
  let fileMatch := exec fileRe fullError in
  {| type := type;
     message := message;
     file := match fileMatch with Some m => group 1 m | None => None end;
     line := match fileMatch with
             | Some m => match group 2 m with Some d => Js.parseInt d | None => None end
             | None => None
             end;
     suggestion :=
       match type with
       | MODULE => Some ("Install missing module: " +:+ Js.show detail)
       | COMMAND =>
           Some ("Command not found: " +:+ Js.show detail
                 +:+ ". Check if it's installed or in PATH.")
       | PERMISSION =>
           Some "Try running with elevated permissions or check file ownership."
       | _ => None
       end;
     confidence := 0.8 |}.

(** The inner loop: the patterns of one category, in declaration order. *)
Fixpoint scan_patterns (type : ErrorType) (ps : list regex) (errorText : string)
    : option ErrorAnalysis :=
  match ps with
  | [] => None
  | pattern :: ps' =>
      match exec pattern errorText with
      | Some m => Some (createAnalysis type (whole m) errorText (group 1 m))
      | None => scan_patterns type ps' errorText
      end
  end.

(** The outer loop: the categories, in table order. *)
Fixpoint scan (tbl : list (ErrorType * list regex)) (errorText : string)
    : option ErrorAnalysis :=
  match tbl with
  | [] => None
  | (type, ps) :: tbl' =>
      match scan_patterns type ps errorText with
      | Some a => Some a
      | None => scan tbl' errorText
      end
  end.

Definition errorText (context : DebugContext) : string :=
  Js.or (error context) (output context).

Definition detect (context : DebugContext) : option ErrorAnalysis :=
  let errorText := errorText context in
  if negb (Js.truthy errorText) then None
  else
    match scan patterns errorText with
    | Some a => Some a
    | None =>
        Some {| type := UNKNOWN;
                message := Js.first_line errorText;
                file := None;
                line := None;
                suggestion := None;
                confidence := 0.5 |}
    end.

End ErrorDetector.

(** ** Effects

    Everything outside the engine (the Ollama client, [child_process.exec],
    [fs.access], [crypto.randomBytes], the clock, the console) is a
    collaborator that answers each request as it pleases.  Its answers may
    depend on all that happened before, so a collaborator is a function of the
    history; theorems hold for every such function. *)

Inductive exn : Type :=
| Error (message : string)                    (* [new Error(message)] of this code *)
| Foreign (origin : string) (payload : string). (* what a collaborator rejected with *)

Inductive outcome (A : Type) : Type :=
| Ok (a : A)
| Throw (e : exn).
Arguments Ok {A} a.
Arguments Throw {A} e.

(** The argument of [ollama.generate]. *)
Record GenerateRequest : Type := {
  model : string;
  prompt : string;
  system : option string;
  temperature : Q;
  num_predict : Z
}.

(** One interaction with a collaborator, with the answer it gave. *)
Inductive Event : Type :=
| RandomBytes (n : nat) (hex : string)
| NewDate (t : Z)
| OllamaList (r : outcome (list string))
| OllamaGenerate (req : GenerateRequest) (r : outcome string)
| OllamaPull (model : string) (r : outcome (list (Z * Z) * option exn))
| ExecAsync (cmd : string) (cwd : option string) (r : outcome unit)
| FsAccess (path : string) (r : outcome unit)
| ConsoleLog (msg : string)
| ConsoleError (msg : string) (e : exn)
| StdoutWrite (text : string).

(** The history, latest event first. *)
Definition history : Type := list Event.

Record Env : Type := {
  env_randomBytes : history -> nat -> string;
  env_now : history -> Z;
  env_list : history -> outcome (list string);
  env_generate : history -> GenerateRequest -> outcome string;
  env_pull : history -> string -> outcome (list (Z * Z) * option exn);
  env_exec : history -> string -> option string -> outcome unit;
  env_access : history -> string -> outcome unit;
  env_toFixed2 : Z -> Z -> string
}.

(** [env_pull] answers with the [(completed, total)] pairs the download stream
    yields and the error that ends it, if one does.  [env_toFixed2 completed
    total] is the text of [(completed / total * 100).toFixed(2)], a
    floating-point computation the embedding leaves to the environment. *)

(** Computations that only talk to collaborators: what a fix's deferred
    operation, and the Ollama service, can do. *)
Definition W (A : Type) : Type := history -> outcome A * history.

Module World.

Definition ret {A} (a : A) : W A := fun h => (Ok a, h).
Definition throw {A} (e : exn) : W A := fun h => (Throw e, h).

Definition bind {A B} (c : W A) (k : A -> W B) : W B :=
  fun h =>
    match c h with
    | (Ok a, h') => k a h'
    | (Throw e, h') => (Throw e, h')
    end.

(** [try { c } catch (e) { handler e }] *)
Definition try_catch {A} (c : W A) (handler : exn -> W A) : W A :=
  fun h =>
    match c h with
    | (Ok a, h') => (Ok a, h')
    | (Throw e, h') => handler e h'
    end.

(** A request whose answer may be a rejection. *)
Definition request {A} (answer : history -> outcome A) (ev : outcome A -> Event) : W A :=
  fun h => let r := answer h in (r, ev r :: h).

(** A request that always answers. *)
Definition ask {A} (answer : history -> A) (ev : A -> Event) : W A :=
  fun h => let a := answer h in (Ok a, ev a :: h).

Definition tell (ev : Event) : W unit := fun h => (Ok tt, ev :: h).

End World.

Declare Scope world_scope.
Delimit Scope world_scope with W.
Notation "'let*' x := c 'in' k" := (World.bind c (fun x => k))
  (at level 10, x name, c at level 100, k at level 200) : world_scope.
Notation "c ;; k" := (World.bind c (fun _ => k))
  (at level 100, k at level 200, right associativity) : world_scope.

Definition nl : string := String Js.newline "".

(** ** The inference gateway ([src/services/ollamaService.ts]) *)

Record ModelConfig : Type := {
  name : option string;
  cfg_temperature : option Q;
  maxTokens : option Z;
  systemPrompt : option string
}.

Module OllamaService.
Section WithEnv.
Variable env : Env.
Local Open Scope world_scope.

Definition defaultModel : string := "llama3.2:latest".

Definition isAvailable : W bool :=
  World.try_catch
    (World.request (env_list env) OllamaList ;; World.ret true)
    (fun _ => World.ret false).

Definition listModels : W (list string) :=
  World.try_catch
    (World.request (env_list env) OllamaList)
    (fun e => World.tell (ConsoleError "Failed to list models:" e) ;; World.ret []).

Definition hasModel (modelName : string) : W bool :=
  let* models := listModels in
  World.ret (existsb (String.eqb modelName) models).

Fixpoint for_each {A} (l : list A) (body : A -> W unit) : W unit :=
  match l with
  | [] => World.ret tt
  | x :: l' => body x ;; for_each l' body
  end.

Definition pullModel (modelName : string) (onProgress : option (Z -> Z -> W unit))
    : W unit :=
  let* stream := World.request (fun h => env_pull env h modelName) (OllamaPull modelName) in
  for_each (fst stream)
    (fun part =>
       match onProgress with
       | Some report =>
           if negb (Z.eqb (snd part) 0) && negb (Z.eqb (fst part) 0)
           then report (fst part) (snd part)
           else World.ret tt
       | None => World.ret tt
       end) ;;
  match snd stream with
  | Some e => World.throw e
  | None => World.ret tt
  end.

(** [o?.f || d] for a string field. *)
Definition or_default (v : option string) (d : string) : string :=
  match v with Some s => Js.or s d | None => d end.

Definition generateResponse (prompt : string) (config : option ModelConfig) : W string :=
  let modelName := or_default (config ≫= name) defaultModel in
  let* has := hasModel modelName in
  if negb has then
    World.throw (Error ("Model " +:+ modelName +:+ " not found. Please pull it first."))
  else
    World.request
      (fun h => env_generate env h
         {| model := modelName;
            prompt := prompt;
            system := config ≫= systemPrompt;
            temperature := default 0.7%Q (config ≫= cfg_temperature);
            num_predict := default 2048 (config ≫= maxTokens) |})
      (OllamaGenerate
         {| model := modelName;
            prompt := prompt;
            system := config ≫= systemPrompt;
            temperature := default 0.7%Q (config ≫= cfg_temperature);
            num_predict := default 2048 (config ≫= maxTokens) |}).

Definition analyzeError (error context : string) (modelConfig : option ModelConfig)
    : W string :=
  let prompt :=
    nl +:+ "You are a debugging assistant. Analyze the following error and provide a concise explanation and solution." +:+ nl
    +:+ nl +:+ "Error:" +:+ nl
    +:+ error +:+ nl
    +:+ nl +:+ "Context:" +:+ nl
    +:+ context +:+ nl
    +:+ nl +:+ "Provide:" +:+ nl
    +:+ "1. A brief explanation of what went wrong" +:+ nl
    +:+ "2. The most likely fix" +:+ nl
    +:+ "3. Any additional steps if needed" +:+ nl
    +:+ nl +:+ "Keep your response concise and actionable." in
  generateResponse prompt
    (Some {| name := Some (or_default (modelConfig ≫= name) defaultModel);
             cfg_temperature := modelConfig ≫= cfg_temperature;
             maxTokens := modelConfig ≫= maxTokens;
             systemPrompt :=
               Some (or_default (modelConfig ≫= systemPrompt)
                       "You are a helpful debugging assistant that provides clear, actionable solutions to programming errors.") |}).

End WithEnv.
End OllamaService.

(** ** Sessions and fixes ([src/types/index.ts]) *)

Module FixType.
Inductive t : Type :=
| COMMAND | FILE_EDIT | INSTALL_PACKAGE | PERMISSION_CHANGE | CONFIG_UPDATE.
End FixType.

(** [apply] is the closure of the source: a computation over the collaborators.
    The values a closure captures ([moduleName], [analysis], [session]) are
    never written after the closure is built, so it captures them by value. *)
Record Fix : Type := {
  fix_type : FixType.t;
  description : string;
  fix_confidence : Q;
  apply : W unit
}.

Record DebugSession : Type := {
  id_ : string;
  startTime : Z;
  context : DebugContext;
  analysis : option ErrorAnalysis;
  fixes : option (list Fix);
  applied : bool
}.

(** [JSON.stringify] of a string. *)
Module JSON.

Definition hex_digit (n : nat) : ascii :=
  Ascii.ascii_of_nat (if (n <? 10)%nat then 48 + n else 87 + n)%nat.

Definition escape (a : ascii) : string :=
  let n := Ascii.nat_of_ascii a in
  if (n =? 34)%nat then "\" +:+ Js.dquote
  else if (n =? 92)%nat then "\\"
  else if (n =? 8)%nat then "\b"
  else if (n =? 9)%nat then "\t"
  else if (n =? 10)%nat then "\n"
  else if (n =? 12)%nat then "\f"
  else if (n =? 13)%nat then "\r"
  else if (n <? 32)%nat then
    "\u00" +:+ String (hex_digit (n / 16)) (String (hex_digit (n mod 16)) "")
  else String a "".

Fixpoint escape_all (s : string) : string :=
  match s with
  | "" => ""
  | String a s' => escape a +:+ escape_all s'
  end.

Definition quote (s : string) : string := Js.dquote +:+ escape_all s +:+ Js.dquote.

(** [JSON.stringify({ command, workingDirectory })] *)
Definition stringify_origin (command workingDirectory : string) : string :=
  "{" +:+ quote "command" +:+ ":" +:+ quote command +:+ ","
      +:+ quote "workingDirectory" +:+ ":" +:+ quote workingDirectory +:+ "}".

End JSON.

(** ** The engine ([src/core/debugEngine.ts]) *)

(** The state of a [DebugEngine] and of the world around it.  [invoked] is a
    history variable: it lists, latest first, the [(sessionId, fixIndex)] of
    every call of a fix's [apply] made by [applyFix]. *)
Record Engine : Type := {
  sessions : gmap string DebugSession;
  world : history;
  invoked : list (string * Z)
}.

(** Engine methods: a thrown error leaves the state as it was at the throw. *)
Definition M (A : Type) : Type := Engine -> outcome A * Engine.

Module Eng.

Definition ret {A} (a : A) : M A := fun st => (Ok a, st).
Definition throw {A} (e : exn) : M A := fun st => (Throw e, st).

Definition bind {A B} (c : M A) (k : A -> M B) : M B :=
  fun st =>
    match c st with
    | (Ok a, st') => k a st'
    | (Throw e, st') => (Throw e, st')
    end.

(** Run a computation over the collaborators. *)
Definition lift {A} (c : W A) : M A :=
  fun st =>
    let '(r, h) := c (world st) in
    (r, {| sessions := sessions st; world := h; invoked := invoked st |}).

(** [this.sessions.get(sessionId)] *)
Definition get (sessionId : string) : M (option DebugSession) :=
  fun st => (Ok (sessions st !! sessionId), st).

(** [this.sessions.set(sessionId, session)] *)
Definition set (sessionId : string) (session : DebugSession) : M unit :=
  fun st =>
    (Ok tt, {| sessions := <[sessionId := session]> (sessions st);
               world := world st; invoked := invoked st |}).

(** An assignment to a field of the session object held under [sessionId]. *)
Definition mutate (sessionId : string) (f : DebugSession -> DebugSession) : M unit :=
  fun st =>
    (Ok tt, {| sessions := alter f sessionId (sessions st);
               world := world st; invoked := invoked st |}).

(** [await fix.apply()] for the fix at [fixIndex] of session [sessionId]: the
    call is noted in [invoked], then the deferred operation runs. *)
Definition invoke (sessionId : string) (fixIndex : Z) (deferred : W unit) : M unit :=
  fun st =>
    let '(r, h) := deferred (world st) in
    (r, {| sessions := sessions st; world := h;
           invoked := (sessionId, fixIndex) :: invoked st |}).

End Eng.

Declare Scope engine_scope.
Delimit Scope engine_scope with M.
Notation "'let*' x := c 'in' k" := (Eng.bind c (fun x => k))
  (at level 10, x name, c at level 100, k at level 200) : engine_scope.
Notation "c ;; k" := (Eng.bind c (fun _ => k))
  (at level 100, k at level 200, right associativity) : engine_scope.

Definition set_suggestion (s : option string) (a : ErrorAnalysis) : ErrorAnalysis :=
  {| type := type a; message := message a; file := file a; line := line a;
     suggestion := s; confidence := confidence a |}.

Definition set_analysis (a : ErrorAnalysis) (s : DebugSession) : DebugSession :=
  {| id_ := id_ s; startTime := startTime s; context := context s;
     analysis := Some a; fixes := fixes s; applied := applied s |}.

Definition set_fixes (l : list Fix) (s : DebugSession) : DebugSession :=
  {| id_ := id_ s; startTime := startTime s; context := context s;
     analysis := analysis s; fixes := Some l; applied := applied s |}.

Definition set_applied (b : bool) (s : DebugSession) : DebugSession :=
  {| id_ := id_ s; startTime := startTime s; context := context s;
     analysis := analysis s; fixes := fixes s; applied := b |}.

(** [a[i]] for a number [i] that holds an integer; [None] is [undefined]. *)
Definition at_index {A} (l : list A) (i : Z) : option A :=
  if (0 <=? i)%Z then l !! Z.to_nat i else None.

(** The session with its analysis; [None] when [!session || !session.analysis]. *)
Definition analysed (session : option DebugSession) : option (DebugSession * ErrorAnalysis) :=
  match session with
  | None => None
  | Some s =>
      match analysis s with
      | None => None
      | Some a => Some (s, a)
      end
  end.

(** The fix [session.fixes[fixIndex]]; [None] when
    [!session || !session.fixes || !session.fixes[fixIndex]]. *)
Definition selected (session : option DebugSession) (fixIndex : Z) : option Fix :=
  match session with
  | None => None
  | Some s =>
      match fixes s with
      | None => None
      | Some l => at_index l fixIndex
      end
  end.

Module DebugEngine.
Section WithEnv.
Variable env : Env.

Definition execAsync (cmd : string) (cwd : option string) : W unit :=
  World.request (fun h => env_exec env h cmd cwd) (ExecAsync cmd cwd).

Definition fs_access (path : string) : W unit :=
  World.request (fun h => env_access env h path) (FsAccess path).

Definition managers : list (string * string) :=
  [ ("bun", "bun.lockb"); ("pnpm", "pnpm-lock.yaml");
    ("yarn", "yarn.lock"); ("npm", "package-lock.json") ].

Fixpoint probe (l : list (string * string)) : W string :=
  match l with
  | [] => World.ret "npm"
  | (cmd, file) :: l' =>
      World.try_catch
        (fs_access file ;; World.ret cmd)%W
        (fun _ => probe l')
  end.

Definition detectPackageManager : W string := probe managers.

(** [m?.[i]] *)
Definition group_of (m : option MatchResult) (i : nat) : option string :=
  m ≫= group i.

(** [v || d] where [v] may be [undefined]. *)
Definition or_else (v : option string) (d : string) : string :=
  match v with Some s => Js.or s d | None => d end.

(** [/Cannot find module '(.+)'|Module not found: (.+)/] *)
Definition moduleRe : regex :=
  Alt (cat [Lit "Cannot find module '"; any1 1; Lit "'"])
      (cat [Lit "Module not found: "; any1 2]).

Definition createModuleInstallFix (analysis : ErrorAnalysis) : Fix :=
  let moduleMatch := exec moduleRe (message analysis) in
  let moduleName :=
    or_else (group_of moduleMatch 1) (or_else (group_of moduleMatch 2) "unknown") in
  {| fix_type := FixType.INSTALL_PACKAGE;
     description := "Install missing module: " +:+ moduleName;
     fix_confidence := 0.9;
     apply :=
       (let* packageManager := detectPackageManager in
        let command := packageManager +:+ " add " +:+ moduleName in
        execAsync command None)%W |}.

(** [/command not found: (.+)/] *)
Definition commandRe : regex := cat [Lit "command not found: "; any1 1].

Definition createCommandFix (analysis : ErrorAnalysis) : Fix :=
  let commandMatch := exec commandRe (message analysis) in
  let command := or_else (group_of commandMatch 1) "unknown" in
  {| fix_type := FixType.COMMAND;
     description := "Install or add " +:+ command +:+ " to PATH";
     fix_confidence := 0.8;
     apply :=
       World.tell
         (ConsoleLog ("Please install " +:+ command +:+ " or ensure it's in your PATH")) |}.

Definition createPermissionFix (analysis : ErrorAnalysis) : Fix :=
  {| fix_type := FixType.PERMISSION_CHANGE;
     description := "Fix file permissions";
     fix_confidence := 0.7;
     apply :=
       match file analysis with
       | Some f =>
           if Js.truthy f then execAsync ("chmod +x " +:+ f) None else World.ret tt
       | None => World.ret tt
       end |}.

Definition createAIFix (session : DebugSession) : W (option Fix) :=
  let prompt :=
    nl +:+ "Given this error:" +:+ nl
    +:+ Js.or (error (context session)) (output (context session)) +:+ nl
    +:+ nl +:+ "From command: " +:+ command (context session) +:+ nl
    +:+ "In directory: " +:+ workingDirectory (context session) +:+ nl
    +:+ nl
    +:+ "Provide a specific fix command that can be executed to resolve this issue." +:+ nl
    +:+ "Respond with ONLY the command, no explanation." in
  (let* fixCommand := OllamaService.generateResponse env prompt None in
   if negb (Js.truthy fixCommand) || String.eqb (Js.trim fixCommand) "" then
     World.ret None
   else
     World.ret (Some
       {| fix_type := FixType.COMMAND;
          description := "Run suggested fix: " +:+ Js.trim fixCommand;
          fix_confidence := 0.6;
          apply :=
            execAsync (Js.trim fixCommand)
              (Some (workingDirectory (context session))) |}))%W.

Local Open Scope engine_scope.

Definition initialize : M unit :=
  let* available := Eng.lift (OllamaService.isAvailable env) in
  if negb available then
    Eng.throw (Error "Ollama is not available. Please ensure Ollama is running.")
  else
    let* hasDefault := Eng.lift (OllamaService.hasModel env "llama3.2:latest") in
    if negb hasDefault then
      Eng.lift (World.tell (ConsoleLog "Default model not found. Pulling llama3.2:latest...")) ;;
      Eng.lift
        (OllamaService.pullModel env "llama3.2:latest"
           (Some (fun completed total =>
              World.tell
                (StdoutWrite (String Js.carriage_return "Downloading: "
                              +:+ env_toFixed2 env completed total +:+ "%"))))) ;;
      Eng.lift (World.tell (ConsoleLog (nl +:+ "Model downloaded successfully!")))
    else Eng.ret tt.

Definition createSession (context : DebugContext) : M string :=
  let* sessionId := Eng.lift (World.ask (fun h => env_randomBytes env h 8) (RandomBytes 8)) in
  let* now := Eng.lift (World.ask (env_now env) NewDate) in
  Eng.set sessionId
    {| id_ := sessionId; startTime := now; context := context;
       analysis := None; fixes := None; applied := false |} ;;
  Eng.ret sessionId.

Definition analyzeError (sessionId : string) : M (option ErrorAnalysis) :=
  let* session := Eng.get sessionId in
  match session with
  | None => Eng.throw (Error "Session not found")
  | Some session =>
      match ErrorDetector.detect (context session) with
      | None => Eng.ret None
      | Some analysis =>
          let* aiAnalysis :=
            Eng.lift
              (OllamaService.analyzeError env
                 (Js.or (error (context session)) (output (context session)))
                 (JSON.stringify_origin (command (context session))
                    (workingDirectory (context session)))
                 None) in
          let analysis := set_suggestion (Some aiAnalysis) analysis in
          Eng.mutate sessionId (set_analysis analysis) ;;
          Eng.ret (Some analysis)
      end
  end.

Definition generateFixes (sessionId : string) : M (list Fix) :=
  let* session := Eng.get sessionId in
  match analysed session with
  | None => Eng.throw (Error "No analysis available for session")
  | Some (session, analysis) =>
      let* fixes :=
        match type analysis with
        | MODULE => Eng.ret [createModuleInstallFix analysis]
        | COMMAND => Eng.ret [createCommandFix analysis]
        | PERMISSION => Eng.ret [createPermissionFix analysis]
        | _ =>
            let* aiFix := Eng.lift (createAIFix session) in
            Eng.ret (match aiFix with Some f => [f] | None => [] end)
        end in
      Eng.mutate sessionId (set_fixes fixes) ;;
      Eng.ret fixes
  end.

Definition applyFix (sessionId : string) (fixIndex : Z) : M unit :=
  let* session := Eng.get sessionId in
  match selected session fixIndex with
  | None => Eng.throw (Error "Fix not found")
  | Some fix_ =>
      Eng.invoke sessionId fixIndex (apply fix_) ;;
      Eng.mutate sessionId (set_applied true)
  end.

Definition getSession (sessionId : string) : M (option DebugSession) :=
  Eng.get sessionId.

End WithEnv.
End DebugEngine.

(** ** Vocabulary of the statements *)

(** The order in which [detect] tries the patterns: category by category,
    each category's patterns in declaration order. *)
Definition scan_order : list (ErrorType * regex) :=
  flat_map (fun e => map (pair (fst e)) (snd e)) ErrorDetector.patterns.

(** [p] is a recognition pattern of category [C]. *)
Definition pattern_of (C : ErrorType) (p : regex) : Prop := In (C, p) scan_order.

(** The first pattern of a list, in order, that matches the text. *)
Fixpoint first_hit (l : list (ErrorType * regex)) (text : string)
    : option (ErrorType * MatchResult) :=
  match l with
  | [] => None
  | (C, p) :: l' =>
      match exec p text with
      | Some m => Some (C, m)
      | None => first_hit l' text
      end
  end.


(** The stack frame of the claim. *)
Definition frame : string := "at Foo (/a/b/c.ext:42:7)".




(** The text has no line terminator. *)
Definition one_line (s : string) : bool :=
  forallb (cset_mem Dot) (list_ascii_of_string s).

(** A call of the orchestrator's public surface. *)
Inductive Call : Type :=
| Initialize
| CreateSession (context : DebugContext)
| AnalyzeError (sessionId : string)
| GenerateFixes (sessionId : string)
| ApplyFix (sessionId : string) (fixIndex : Z)
| GetSession (sessionId : string).

(** The state after a call, whether it returned or threw. *)
Definition after (env : Env) (c : Call) (st : Engine) : Engine :=
  match c with
  | Initialize => snd (DebugEngine.initialize env st)
  | CreateSession context => snd (DebugEngine.createSession env context st)
  | AnalyzeError sessionId => snd (DebugEngine.analyzeError env sessionId st)
  | GenerateFixes sessionId => snd (DebugEngine.generateFixes env sessionId st)
  | ApplyFix sessionId fixIndex => snd (DebugEngine.applyFix sessionId fixIndex st)
  | GetSession sessionId => snd (DebugEngine.getSession sessionId st)
  end.

Definition after_all (env : Env) (calls : list Call) (st : Engine) : Engine :=
  fold_left (fun st c => after env c st) calls st.

Definition same_fix (sessionId : string) (fixIndex : Z) (e : string * Z) : bool :=
  String.eqb sessionId (fst e) && Z.eqb fixIndex (snd e).

(** How often the deferred operation of fix [fixIndex] of session [sessionId]
    was run. *)
Definition times_run (sessionId : string) (fixIndex : Z) (st : Engine) : nat :=
  length (List.filter (same_fix sessionId fixIndex) (invoked st)).




Definition store_fixes (sessionId : string) (l : list Fix) (st : Engine) : Engine :=
  {| sessions := alter (set_fixes l) sessionId (sessions st);
     world := world st; invoked := invoked st |}.

(** A method that runs no deferred operation. *)
Definition quiet {A} (c : M A) : Prop :=
  forall st, invoked (snd (c st)) = invoked st.

(** ** Sample inputs *)

(** A context as the executor captures one: a command, its stdout and stderr. *)
Definition captured (cmd out err : string) : DebugContext :=
  {| command := cmd; output := out; error := err;
     workingDirectory := "/test"; timestamp := 0 |}.

Definition syntax_and_command : DebugContext :=
  captured "sh build.sh" "" "SyntaxError: command not found: tsc".

Definition gitx_context : DebugContext :=
  captured "gitx status" "" "zsh: command not found: gitx".

Definition random_error : DebugContext :=
  captured "some-command" "" ("Some random error occurred" +:+ nl +:+ "exit 3").

Definition traced_error : DebugContext :=
  captured "node app.js" ""
    ("TypeError: Cannot read property 'name' of undefined" +:+ nl
     +:+ "    " +:+ frame +:+ nl
     +:+ "    at Module._compile (internal/modules/cjs/loader.js:999:30)").

Definition fresh : Engine := {| sessions := ∅; world := []; invoked := [] |}.

(** A world where the model is installed and answers, commands succeed and no
    lock file exists. *)
Definition calm : Env :=
  {| env_randomBytes := fun _ _ => "00112233aabbccdd";
     env_now := fun _ => 0;
     env_list := fun _ => Ok ["llama3.2:latest"];
     env_generate := fun _ _ => Ok "Run the install command.";
     env_pull := fun _ _ => Ok ([(1, 2); (2, 2)], None);
     env_exec := fun _ _ _ => Ok tt;
     env_access := fun _ _ => Throw (Foreign "fs" "ENOENT");
     env_toFixed2 := fun completed total =>
       if Z.eqb completed total then "100.00" else "50.00" |}.

(** The same world, where every command fails. *)
Definition failing : Env :=
  {| env_randomBytes := env_randomBytes calm;
     env_now := env_now calm;
     env_list := env_list calm;
     env_generate := env_generate calm;
     env_pull := env_pull calm;
     env_exec := fun _ _ _ => Throw (Foreign "exec" "exit code 1");
     env_access := env_access calm;
     env_toFixed2 := env_toFixed2 calm |}.

Definition the_id : string := "00112233aabbccdd".

(** The state once a session for the given stderr has its fixes. *)
Definition ready (env : Env) (stderr : string) : Engine :=
  after_all env
    [CreateSession (captured "node app.js" "" stderr);
     AnalyzeError the_id; GenerateFixes the_id] fresh.

Definition denied : Engine :=
  after_all calm
    [CreateSession (captured "./run.sh" "" "bash: ./run.sh: Permission denied");
     AnalyzeError the_id] fresh.

Definition no_requests : Engine :=
  after_all calm
    [CreateSession
       (captured "python app.py" "" "ModuleNotFoundError: No module named 'requests'");
     AnalyzeError the_id] fresh.

Definition left_pad : Engine :=
  after calm (CreateSession (captured "node app.js" "" "Error: Cannot find module 'left-pad'"))
    fresh.

(** The kind and description of each fix stored on the sample session. *)
Definition kinds_and_descriptions (st : Engine) : option (list (FixType.t * string)) :=
  map (fun f => (fix_type f, description f)) <$> ((sessions st !! the_id) ≫= fixes).

(** ** The classifier: scanning order *)

Section Scanning.
Import ErrorDetector.

Lemma scan_patterns_first_hit C ps text :
  scan_patterns C ps text
  = (fun h => createAnalysis (fst h) (whole (snd h)) text (group 1 (snd h)))
      <$> first_hit (map (pair C) ps) text.
Proof.
  induction ps as [|p ps IH]; simpl; [reflexivity|].
  destruct (exec p text); simpl; [reflexivity | exact IH].
Qed.

Lemma first_hit_app l1 l2 text :
  first_hit (l1 ++ l2)%list text
  = match first_hit l1 text with
    | Some h => Some h
    | None => first_hit l2 text
    end.
Proof.
  induction l1 as [|[C p] l1 IH]; simpl; [reflexivity|].
  destruct (exec p text); auto.
Qed.

Lemma scan_first_hit tbl text :
  scan tbl text
  = (fun h => createAnalysis (fst h) (whole (snd h)) text (group 1 (snd h)))
      <$> first_hit (flat_map (fun e => map (pair (fst e)) (snd e)) tbl) text.
Proof.
  induction tbl as [|[C ps] tbl IH]; simpl; [reflexivity|].
  rewrite first_hit_app, scan_patterns_first_hit.
  destruct (first_hit (map (pair C) ps) text); simpl; [reflexivity | exact IH].
Qed.

Lemma first_hit_none l text :
  (forall C p, In (C, p) l -> exec p text = None) -> first_hit l text = None.
Proof.
  induction l as [|[C p] l IH]; simpl; intros H; [reflexivity|].
  rewrite (H C p) by auto. apply IH. intros C' p' Hin. apply (H C' p'). auto.
Qed.

Lemma first_hit_split before C p after text m :
  (forall C' p', In (C', p') before -> exec p' text = None) ->
  exec p text = Some m ->
  first_hit (before ++ (C, p) :: after)%list text = Some (C, m).
Proof.
  intros Hb Hm. rewrite first_hit_app, (first_hit_none _ _ Hb). simpl.
  rewrite Hm. reflexivity.
Qed.

(** When some pattern of the list matches, there is a first one. *)
Lemma first_hit_exists l text C p :
  In (C, p) l -> exec p text <> None ->
  exists before C' p' after m,
    l = (before ++ (C', p') :: after)%list
    /\ (forall D q, In (D, q) before -> exec q text = None)
    /\ exec p' text = Some m
    /\ first_hit l text = Some (C', m).
Proof.
  induction l as [|[D q] l IH]; simpl; [tauto|].
  intros Hin Hm. destruct (exec q text) as [m|] eqn:Hq.
  - exists [], D, q, l, m. simpl. repeat split; auto. tauto.
  - destruct Hin as [Heq|Hin]; [inversion Heq; subst; congruence|].
    destruct (IH Hin Hm) as (before & C' & p' & after & m & -> & Hb & Hp & Hf).
    exists ((D, q) :: before), C', p', after, m. repeat split; auto.
    intros D' q' [Heq|Hin']; [inversion Heq; subst; exact Hq | eauto].
Qed.

(** No recognition pattern matches the empty text. *)
Lemma scan_order_nonempty C p :
  In (C, p) scan_order -> exec p "" = None.
Proof.
  intros Hin.
  assert (Hall : forallb (fun e => negb (matches (snd e) "")) scan_order = true)
    by (vm_compute; reflexivity).
  rewrite forallb_forall in Hall. specialize (Hall _ Hin). simpl in Hall.
  unfold matches in Hall. destruct (exec p ""); [discriminate | reflexivity].
Qed.

Lemma matched_text_truthy C p text :
  In (C, p) scan_order -> exec p text <> None -> Js.truthy text = true.
Proof.
  intros Hin Hm. destruct text; [|reflexivity].
  exfalso. apply Hm. eapply scan_order_nonempty; eauto.
Qed.

(** [detect] on a text that is not empty, by the first pattern that matches. *)
Lemma detect_first_hit context :
  Js.truthy (errorText context) = true ->
  detect context
  = Some match first_hit scan_order (errorText context) with
         | Some (C, m) => createAnalysis C (whole m) (errorText context) (group 1 m)
         | None =>
             {| type := UNKNOWN; message := Js.first_line (errorText context);
                file := None; line := None; suggestion := None; confidence := 0.5 |}
         end.
Proof.
  intros Ht. unfold detect. rewrite Ht. simpl negb. cbv iota.
  rewrite scan_first_hit. fold scan_order.
  destruct (first_hit scan_order (errorText context)) as [[C m]|]; reflexivity.
Qed.

End Scanning.

Section Classifier.
Import ErrorDetector.

Lemma first_hit_in l text C m :
  first_hit l text = Some (C, m) -> exists p, In (C, p) l /\ exec p text = Some m.
Proof.
  induction l as [|[D q] l IH]; simpl; [discriminate|].
  destruct (exec q text) as [m'|] eqn:Hq.
  - intros [= <- <-]. eauto.
  - intros H. destruct (IH H) as (p & Hin & Hp). eauto.
Qed.

Lemma truthy_nonempty s : s <> "" -> Js.truthy s = true.
Proof. destruct s; [congruence | reflexivity]. Qed.




(** C7, as the code has it.  For a text matched by a pattern [p] of category
    [C], [detect] returns a diagnosis of confidence 0.8 whose category and
    message are those of the first pattern, in scanning order, that matches:
    the category of that pattern and the full substring it matched.  They are
    [C] and the substring matched by [p] when no pattern scanned before [p]
    matches. *)
Theorem classify_matched (context : DebugContext) (C : ErrorType) (p : regex)
    (m : MatchResult) :
  pattern_of C p ->
  exec p (errorText context) = Some m ->
  exists a,
    detect context = Some a
    /\ confidence a = 0.8%Q
    /\ (exists before C' p' after m',
          scan_order = (before ++ (C', p') :: after)%list
          /\ (forall D q, In (D, q) before -> exec q (errorText context) = None)
          /\ exec p' (errorText context) = Some m'
          /\ type a = C' /\ message a = whole m')
    /\ (forall before after,
          scan_order = (before ++ (C, p) :: after)%list ->
          (forall D q, In (D, q) before -> exec q (errorText context) = None) ->
          type a = C /\ message a = whole m).
Proof.
  intros Hin Hm.
  assert (Hne : exec p (errorText context) <> None) by congruence.
  rewrite detect_first_hit by (eapply matched_text_truthy; eauto).
  destruct (first_hit_exists _ _ _ _ Hin Hne)
    as (before & C' & p' & after & m' & Heq & Hb & Hp' & Hfirst).
  rewrite Hfirst. eexists. split; [reflexivity|]. split; [reflexivity|]. split.
  - exists before, C', p', after, m'. repeat split; auto.
  - intros before0 after0 Heq0 Hb0.
    pose proof (first_hit_split before0 C p after0 _ m Hb0 Hm) as H0.
    rewrite <- Heq0, Hfirst in H0. injection H0 as -> ->. split; reflexivity.
Qed.

Lemma classify_matched_witness :
  exists a,
    detect gitx_context = Some a
    /\ confidence a = 0.8%Q
    /\ type a = COMMAND /\ message a = "command not found: gitx".
Proof.
  destruct (classify_matched gitx_context COMMAND
              (cat [Lit "command not found: "; any1 1])
              {| whole := "command not found: gitx"; caps := [(1%nat, "gitx")] |})
    as (a & Ha & Hc & _ & Hfirst).
  - unfold pattern_of. vm_compute. tauto.
  - vm_compute. reflexivity.
  - exists a. split; [exact Ha|]. split; [exact Hc|].
    apply (Hfirst (firstn 17 scan_order) (skipn 18 scan_order)).
    + vm_compute. reflexivity.
    + intros D q Hq.
      assert (Hall : forallb (fun e => negb (matches (snd e) (errorText gitx_context)))
                       (firstn 17 scan_order) = true) by (vm_compute; reflexivity).
      rewrite forallb_forall in Hall. specialize (Hall _ Hq). simpl in Hall.
      unfold matches in Hall.
      destruct (exec q (errorText gitx_context)); [discriminate | reflexivity].
Defined.

(** C7, as the claim states it, fails: this text is matched by a command
    pattern, and the diagnosis is neither of category command nor carries the
    substring that pattern matched. *)
Lemma classify_matched_counterexample :
  let context := syntax_and_command in
  let p := cat [Lit "command not found: "; any1 1] in
  exists m,
    pattern_of COMMAND p
    /\ exec p (errorText context) = Some m
    /\ ~ (exists a, detect context = Some a /\ type a = COMMAND
                    /\ confidence a = 0.8%Q /\ message a = whole m).
Proof.
  eexists. split; [unfold pattern_of; vm_compute; tauto|].
  split; [vm_compute; reflexivity|].
  intros (a & Ha & Ht & _). vm_compute in Ha. injection Ha as <-. discriminate.
Qed.

(** C6, as the code has it.  For every text that is not empty and that no
    recognition pattern of any category matches, [detect] returns a diagnosis
    of category unknown, confidence 0.5, whose message is the first line of the
    text, with no suggestion, no file and no line. *)
Theorem classify_unmatched (context : DebugContext) :
  errorText context <> "" ->
  (forall C p, pattern_of C p -> exec p (errorText context) = None) ->
  detect context
  = Some {| type := UNKNOWN; message := Js.first_line (errorText context);
            file := None; line := None; suggestion := None; confidence := 0.5 |}.
Proof.
  intros Hne Hnone.
  rewrite detect_first_hit by (apply truthy_nonempty; exact Hne).
  rewrite (first_hit_none _ _ Hnone). reflexivity.
Qed.

Lemma classify_unmatched_witness :
  errorText random_error <> ""
  /\ detect random_error
     = Some {| type := UNKNOWN; message := "Some random error occurred";
               file := None; line := None; suggestion := None; confidence := 0.5 |}.
Proof.
  split; [vm_compute; discriminate|].
  apply (classify_unmatched random_error); [vm_compute; discriminate|].
  intros C p Hp.
  assert (Hall : forallb (fun e => negb (matches (snd e) (errorText random_error)))
                   scan_order = true) by (vm_compute; reflexivity).
  rewrite forallb_forall in Hall. specialize (Hall _ Hp). simpl in Hall.
  unfold matches in Hall.
  destruct (exec p (errorText random_error)); [discriminate | reflexivity].
Defined.

(** C6, as the claim states it, fails on the empty text: no pattern matches
    it, and [detect] returns nothing instead of an unknown diagnosis. *)
Lemma classify_unmatched_counterexample :
  let context := captured "true" "" "" in
  (forall C p, pattern_of C p -> exec p (errorText context) = None)
  /\ detect context = None
  /\ ~ (exists a, detect context = Some a /\ type a = UNKNOWN).
Proof.
  split; [intros C p Hp; apply (scan_order_nonempty C p Hp)|].
  split; [reflexivity|]. intros (a & Ha & _). discriminate.
Qed.

(** C10. When the captured stderr is not empty the classification is a
    function of the stderr alone: two contexts with the same stderr get the
    same result whatever their stdout (and command, directory, time); the
    stdout is the classified text only when the stderr is empty. *)
Theorem classify_stderr_only (c1 c2 : DebugContext) :
  error c1 <> "" ->
  error c2 = error c1 ->
  detect c1 = detect c2
  /\ errorText c1 = error c1
  /\ (forall c, errorText c = output c -> output c <> error c -> error c = "").
Proof.
  intros Hne Heq.
  assert (H1 : errorText c1 = error c1).
  { unfold errorText, Js.or. rewrite truthy_nonempty; auto. }
  assert (H2 : errorText c2 = error c1).
  { unfold errorText, Js.or. rewrite Heq, truthy_nonempty; auto. }
  split; [|split; [exact H1|]].
  - unfold detect. rewrite H1, H2. reflexivity.
  - intros c Hc Hd. unfold errorText, Js.or in Hc.
    destruct (error c); [reflexivity|]. simpl in Hc. congruence.
Qed.

Lemma classify_stderr_only_witness :
  detect (captured "make" "compiling..." "TypeError: x is not a function")
  = detect (captured "make" "SyntaxError: never read" "TypeError: x is not a function").
Proof.
  apply (classify_stderr_only
           (captured "make" "compiling..." "TypeError: x is not a function")
           (captured "make" "SyntaxError: never read" "TypeError: x is not a function"));
    [discriminate | reflexivity].
Defined.

End Classifier.

(** ** The classifier: location *)

Section Location.
Import ErrorDetector.
Local Arguments String.append : simpl nomatch.

Lemma exec_here r s m : match_here r s = Some m -> exec r s = Some m.
Proof. intros H. destruct s; simpl; rewrite H; reflexivity. Qed.











End Location.

(** ** The orchestrator *)

Section Orchestrator.
Import DebugEngine.

Lemma applyFix_unfold sessionId fixIndex st :
  applyFix sessionId fixIndex st
  = match selected (sessions st !! sessionId) fixIndex with
    | None => (Throw (Error "Fix not found"), st)
    | Some f =>
        match apply f (world st) with
        | (Ok _, h) =>
            (Ok tt, {| sessions := alter (set_applied true) sessionId (sessions st);
                       world := h;
                       invoked := (sessionId, fixIndex) :: invoked st |})
        | (Throw e, h) =>
            (Throw e, {| sessions := sessions st; world := h;
                         invoked := (sessionId, fixIndex) :: invoked st |})
        end
    end.
Proof.
  unfold applyFix, Eng.bind, Eng.get, Eng.throw, Eng.invoke, Eng.mutate. cbn.
  destruct (selected (sessions st !! sessionId) fixIndex) as [f|]; [|reflexivity].
  destruct (apply f (world st)) as [[[]|e] h]; reflexivity.
Qed.

(** C4. [applyFix] throws [Error('Fix not found')] when the session is
    unknown, when it has no fixes list, and when the index is out of range,
    and then changes nothing; when the selected fix's deferred operation
    throws, [applyFix] throws that same error and leaves every session as it
    was: a session whose [applied] flag was false still has it false. *)
Theorem applyFix_failures (sessionId : string) (fixIndex : Z) (st : Engine) :
  ((sessions st !! sessionId = None
    \/ (exists s, sessions st !! sessionId = Some s /\ fixes s = None)
    \/ (exists s l, sessions st !! sessionId = Some s /\ fixes s = Some l
                    /\ (fixIndex < 0 \/ Z.of_nat (length l) <= fixIndex))) ->
   applyFix sessionId fixIndex st = (Throw (Error "Fix not found"), st))
  /\ (forall f e h,
        selected (sessions st !! sessionId) fixIndex = Some f ->
        apply f (world st) = (Throw e, h) ->
        exists st',
          applyFix sessionId fixIndex st = (Throw e, st')
          /\ sessions st' = sessions st
          /\ world st' = h
          /\ (forall s, sessions st !! sessionId = Some s -> applied s = false ->
                        applied <$> (sessions st' !! sessionId) = Some false)).
Proof.
  split.
  - intros H. rewrite applyFix_unfold.
    assert (Hsel : selected (sessions st !! sessionId) fixIndex = None).
    { destruct H as [->|[(s & -> & Hf)|(s & l & -> & Hf & Hi)]]; simpl.
      - reflexivity.
      - rewrite Hf. reflexivity.
      - rewrite Hf. unfold at_index. destruct (Z.leb_spec 0 fixIndex); [|reflexivity].
        apply lookup_ge_None. lia. }
    rewrite Hsel. reflexivity.
  - intros f e h Hsel Hap. rewrite applyFix_unfold, Hsel, Hap.
    eexists. split; [reflexivity|]. cbn. repeat split.
    intros s Hs Ha. rewrite Hs. simpl. rewrite Ha. reflexivity.
Qed.

Lemma applyFix_failures_witness :
  let st := ready failing "Error: Cannot find module 'left-pad'" in
  applyFix "ffffffffffffffff" 0 st = (Throw (Error "Fix not found"), st)
  /\ applyFix the_id 1 st = (Throw (Error "Fix not found"), st)
  /\ selected (sessions st !! the_id) 0 <> None
  /\ exists st',
       applyFix the_id 0 st = (Throw (Foreign "exec" "exit code 1"), st')
       /\ sessions st' = sessions st
       /\ applied <$> (sessions st' !! the_id) = Some false.
Proof.
  intros st.
  split; [apply (proj1 (applyFix_failures "ffffffffffffffff" 0 st)); left;
          vm_compute; reflexivity|].
  destruct (sessions st !! the_id) as [s|] eqn:Hs; [|vm_compute in Hs; discriminate Hs].
  destruct (fixes s) as [l|] eqn:Hl;
    [|vm_compute in Hs; injection Hs as <-; discriminate Hl].
  split.
  { apply (proj1 (applyFix_failures the_id 1 st)). right. right.
    exists s, l. split; [exact Hs|]. split; [exact Hl|]. right.
    vm_compute in Hs. injection Hs as <-. vm_compute in Hl. injection Hl as <-.
    vm_compute. discriminate. }
  destruct (selected (Some s) 0) as [f|] eqn:Hsel;
    [|vm_compute in Hs; injection Hs as <-; vm_compute in Hsel; discriminate Hsel].
  split; [discriminate|].
  rewrite <- Hs in Hsel.
  destruct (proj2 (applyFix_failures the_id 0 st) f (Foreign "exec" "exit code 1")
              (snd (apply f (world st))) Hsel)
    as (st' & Hrun & Hsess & _ & Hflag).
  - rewrite Hs in Hsel. vm_compute in Hs. injection Hs as <-.
    vm_compute in Hsel. injection Hsel as <-. vm_compute. reflexivity.
  - exists st'. split; [exact Hrun|]. split; [exact Hsess|].
    apply (Hflag s Hs). vm_compute in Hs. injection Hs as <-. reflexivity.
Defined.

Lemma generateFixes_deterministic env sessionId st session a :
  sessions st !! sessionId = Some session ->
  analysis session = Some a ->
  generateFixes env sessionId st
  = match type a with
    | MODULE =>
        (Ok [createModuleInstallFix env a],
         store_fixes sessionId [createModuleInstallFix env a] st)
    | COMMAND =>
        (Ok [createCommandFix a], store_fixes sessionId [createCommandFix a] st)
    | PERMISSION =>
        (Ok [createPermissionFix env a],
         store_fixes sessionId [createPermissionFix env a] st)
    | _ => generateFixes env sessionId st
    end.
Proof.
  intros Hs Ha.
  unfold generateFixes, Eng.bind, Eng.get, Eng.throw, Eng.mutate, Eng.ret, analysed.
  rewrite Hs, Ha. destruct (type a) eqn:Ht; try reflexivity.
Qed.

(** C9. For a permission diagnosis without a file path, [generateFixes]
    returns one fix, of kind [permission_change] (the spec's
    [change_permission]) and confidence 0.7, and does so without talking to any
    collaborator; the fix's deferred operation, run in any world, returns
    without throwing and without a single interaction: no process, no file
    access. *)
Theorem permission_fix_noop (env : Env) (sessionId : string) (st : Engine)
    (session : DebugSession) (a : ErrorAnalysis) :
  sessions st !! sessionId = Some session ->
  analysis session = Some a ->
  type a = PERMISSION ->
  file a = None ->
  exists f st',
    generateFixes env sessionId st = (Ok [f], st')
    /\ world st' = world st
    /\ fix_type f = FixType.PERMISSION_CHANGE
    /\ fix_confidence f = 0.7%Q
    /\ forall h, apply f h = (Ok tt, h).
Proof.
  intros Hs Ha Ht Hf.
  rewrite (generateFixes_deterministic env _ _ _ _ Hs Ha), Ht.
  eexists. eexists. split; [reflexivity|]. repeat split.
  intros h. cbn. rewrite Hf. reflexivity.
Qed.

Lemma permission_fix_noop_witness :
  exists f st',
    generateFixes calm the_id denied = (Ok [f], st')
    /\ world st' = world denied
    /\ fix_type f = FixType.PERMISSION_CHANGE
    /\ fix_confidence f = 0.7%Q
    /\ forall h, apply f h = (Ok tt, h).
Proof.
  destruct (sessions denied !! the_id) as [s|] eqn:Hs;
    [|vm_compute in Hs; discriminate Hs].
  destruct (analysis s) as [a|] eqn:Ha;
    [|vm_compute in Hs; injection Hs as <-; discriminate Ha].
  apply (permission_fix_noop calm the_id denied s a Hs Ha);
    vm_compute in Hs; injection Hs as <-; vm_compute in Ha; injection Ha as <-;
    reflexivity.
Defined.

(** C2 fails on the code for two of the four phrasings that make a module
    diagnosis.  For the message [No module named 'requests'] the single fix
    has kind [install_package] and confidence 0.9, and its description names
    the module [unknown], not [requests]. *)
Theorem module_fix_unknown (env : Env) (sessionId : string) (st : Engine)
    (session : DebugSession) (a : ErrorAnalysis) :
  sessions st !! sessionId = Some session ->
  analysis session = Some a ->
  type a = MODULE ->
  message a = "No module named 'requests'" ->
  exists f st',
    generateFixes env sessionId st = (Ok [f], st')
    /\ fix_type f = FixType.INSTALL_PACKAGE
    /\ fix_confidence f = 0.9%Q
    /\ description f = "Install missing module: unknown".
Proof.
  intros Hs Ha Ht Hm.
  rewrite (generateFixes_deterministic env _ _ _ _ Hs Ha), Ht.
  eexists. eexists. split; [reflexivity|]. repeat split.
  cbn [description createModuleInstallFix]. rewrite Hm. vm_compute. reflexivity.
Qed.

Lemma module_fix_unknown_witness :
  (message <$> ((sessions no_requests !! the_id) ≫= analysis))
  = Some "No module named 'requests'"
  /\ exists f st',
       generateFixes calm the_id no_requests = (Ok [f], st')
       /\ fix_type f = FixType.INSTALL_PACKAGE
       /\ fix_confidence f = 0.9%Q
       /\ description f = "Install missing module: unknown".
Proof.
  split; [vm_compute; reflexivity|].
  destruct (sessions no_requests !! the_id) as [s|] eqn:Hs;
    [|vm_compute in Hs; discriminate Hs].
  destruct (analysis s) as [a|] eqn:Ha;
    [|vm_compute in Hs; injection Hs as <-; discriminate Ha].
  apply (module_fix_unknown calm the_id no_requests s a Hs Ha);
    vm_compute in Hs; injection Hs as <-; vm_compute in Ha; injection Ha as <-;
    reflexivity.
Defined.

(** What a successful answer of the gateway leaves in the history. *)
Lemma gateway_answer env text json h response h' :
  OllamaService.analyzeError env text json None h = (Ok response, h') ->
  exists req h0, h' = OllamaGenerate req (Ok response) :: h0.
Proof.
  unfold OllamaService.analyzeError, OllamaService.generateResponse,
    OllamaService.hasModel, World.bind.
  destruct (OllamaService.listModels env h) as [[models|e] h1]; [|discriminate].
  unfold World.ret, World.throw. cbv beta iota.
  match goal with |- context [if ?b then _ else _] => destruct b end;
    [discriminate|].
  unfold World.request. intros [= Hr <-]. rewrite Hr. eauto.
Qed.

(** C5. When [analyzeError] returns a diagnosis, the gateway answered the
    enrichment request with some text; the diagnosis returned is the one
    stored on the session; its suggestion is that text, whatever suggestion
    the pattern gave; and its confidence (like its category, message and
    location) is the one the classifier computed. *)
Theorem analyzeError_enrichment (env : Env) (sessionId : string) (st st' : Engine)
    (a : ErrorAnalysis) :
  analyzeError env sessionId st = (Ok (Some a), st') ->
  exists session a0 response req h0,
    sessions st !! sessionId = Some session
    /\ ErrorDetector.detect (context session) = Some a0
    /\ OllamaService.analyzeError env
         (ErrorDetector.errorText (context session))
         (JSON.stringify_origin (command (context session))
            (workingDirectory (context session)))
         None (world st)
       = (Ok response, world st')
    /\ world st' = OllamaGenerate req (Ok response) :: h0
    /\ (sessions st' !! sessionId) ≫= analysis = Some a
    /\ suggestion a = Some response
    /\ confidence a = confidence a0
    /\ a = set_suggestion (Some response) a0.
Proof.
  unfold analyzeError, Eng.bind, Eng.get, Eng.throw, Eng.ret, Eng.lift, Eng.mutate.
  destruct (sessions st !! sessionId) as [session|] eqn:Hs; [|discriminate].
  destruct (ErrorDetector.detect (context session)) as [a0|] eqn:Hd; [|discriminate].
  fold (ErrorDetector.errorText (context session)).
  destruct (OllamaService.analyzeError env _ _ None (world st)) as [[response|e] h] eqn:Hg;
    [|discriminate].
  intros [= <- <-]. cbn [world sessions].
  destruct (gateway_answer _ _ _ _ _ _ Hg) as (req & h0 & ->).
  exists session, a0, response, req, h0. repeat split; auto.
  rewrite lookup_alter_eq, Hs. reflexivity.
Qed.

Lemma analyzeError_enrichment_witness :
  exists a st',
    analyzeError calm the_id left_pad = (Ok (Some a), st')
    /\ (sessions st' !! the_id) ≫= analysis = Some a
    /\ suggestion a = Some "Run the install command."
    /\ confidence a = 0.8%Q.
Proof.
  destruct (analyzeError calm the_id left_pad) as [[[a|]|e] st'] eqn:Hrun;
    try (vm_compute in Hrun; discriminate Hrun).
  destruct (analyzeError_enrichment calm the_id left_pad st' a Hrun)
    as (session & a0 & response & req & h0 & Hs & Hd & Hg & Hw & Hst & Hsug & Hc & Ha).
  exists a, st'. split; [reflexivity|]. split; [exact Hst|].
  vm_compute in Hrun. injection Hrun as <- <-. split; reflexivity.
Defined.

Lemma quiet_ret {A} (a : A) : quiet (Eng.ret a).
Proof. intros st. reflexivity. Qed.

Lemma quiet_throw {A} (e : exn) : quiet (@Eng.throw A e).
Proof. intros st. reflexivity. Qed.

Lemma quiet_get sessionId : quiet (Eng.get sessionId).
Proof. intros st. reflexivity. Qed.

Lemma quiet_set sessionId session : quiet (Eng.set sessionId session).
Proof. intros st. reflexivity. Qed.

Lemma quiet_mutate sessionId f : quiet (Eng.mutate sessionId f).
Proof. intros st. reflexivity. Qed.

Lemma quiet_lift {A} (c : W A) : quiet (Eng.lift c).
Proof. intros st. unfold Eng.lift. destruct (c (world st)). reflexivity. Qed.

Lemma quiet_bind {A B} (c : M A) (k : A -> M B) :
  quiet c -> (forall a, quiet (k a)) -> quiet (Eng.bind c k).
Proof.
  intros Hc Hk st. unfold Eng.bind. specialize (Hc st).
  destruct (c st) as [[a|e] st1]; simpl in *; [|exact Hc].
  rewrite (Hk a st1). exact Hc.
Qed.

Create HintDb quiet.
#[local] Hint Resolve quiet_ret quiet_throw quiet_get quiet_set quiet_mutate
  quiet_lift : quiet.

Ltac quiet_step :=
  first [ apply quiet_bind; [|intros ?] | solve [auto with quiet] ].

Lemma quiet_initialize env : quiet (initialize env).
Proof.
  unfold initialize. quiet_step; [quiet_step|].
  destruct (negb a); [quiet_step|]. quiet_step; [quiet_step|].
  destruct (negb a0); repeat quiet_step.
Qed.






Lemma same_fix_refl sessionId fixIndex :
  same_fix sessionId fixIndex (sessionId, fixIndex) = true.
Proof. unfold same_fix. cbn. rewrite String.eqb_refl, Z.eqb_refl. reflexivity. Qed.






End Orchestrator.

(** ** The module name of an install fix *)

Section ModuleName.
Import DebugEngine.
Local Arguments String.append : simpl nomatch.

(** A greedy [.*] over a one-line text takes all of it when what follows
    accepts the end of the text. *)
Lemma star_run_all X (k : cont) r :
  one_line X = true -> k X "" = Some r -> star_run Dot X k = Some r.
Proof.
  revert k. induction X as [|a X IH]; intros k Hl Hk; cbn [star_run]; [exact Hk|].
  unfold one_line in Hl. cbn [list_ascii_of_string forallb] in Hl.
  apply andb_true_iff in Hl as [Ha Hl]. rewrite Ha.
  rewrite (IH (fun m rest => k (String a m) rest)); auto.
Qed.

(** A greedy [.*] before a closing quote gives the quote back. *)
Lemma star_run_to_quote X (k : cont) r :
  one_line X = true ->
  k (X +:+ "'") "" = None -> k X "'" = Some r ->
  star_run Dot (X +:+ "'") k = Some r.
Proof.
  revert k. induction X as [|a X IH]; intros k Hl Hend Hk.
  - cbn [String.append] in Hend |- *. cbn. rewrite Hend. exact Hk.
  - unfold one_line in Hl. cbn [list_ascii_of_string forallb] in Hl.
    apply andb_true_iff in Hl as [Ha Hl].
    cbn [String.append star_run]. rewrite Ha.
    rewrite (IH (fun m rest => k (String a m) rest)); auto.
Qed.

Lemma moduleRe_cannot_find X :
  X <> "" -> one_line X = true ->
  exec moduleRe ("Cannot find module '" +:+ X +:+ "'")
  = Some {| whole := "Cannot find module '" +:+ X +:+ "'"; caps := [(1%nat, X)] |}.
Proof.
  intros Hne Hl. apply exec_here. destruct X as [|a X]; [congruence|].
  unfold one_line in Hl. cbn [list_ascii_of_string forallb] in Hl.
  apply andb_true_iff in Hl as [Ha Hl].
  unfold match_here, moduleRe, cat, any1. cbn [mt].
  cbn [String.append Js.strip_prefix Ascii.eqb Bool.eqb plus_run]. rewrite Ha.
  erewrite star_run_to_quote; [reflexivity | exact Hl | reflexivity | reflexivity].
Qed.

Lemma moduleRe_not_found X :
  X <> "" -> one_line X = true ->
  exec moduleRe ("Module not found: " +:+ X)
  = Some {| whole := "Module not found: " +:+ X; caps := [(2%nat, X)] |}.
Proof.
  intros Hne Hl. apply exec_here. destruct X as [|a X]; [congruence|].
  unfold one_line in Hl. cbn [list_ascii_of_string forallb] in Hl.
  apply andb_true_iff in Hl as [Ha Hl].
  unfold match_here, moduleRe, cat, any1. cbn [mt].
  cbn [String.append Js.strip_prefix Ascii.eqb Bool.eqb plus_run]. rewrite Ha.
  erewrite star_run_all; [reflexivity | exact Hl | reflexivity].
Qed.

(** Where C2 holds: for the two phrasings [createModuleInstallFix] knows, the
    description of the install fix names the module. *)
Lemma module_fix_names_module env a X :
  X <> "" -> one_line X = true ->
  message a = "Cannot find module '" +:+ X +:+ "'"
  \/ message a = "Module not found: " +:+ X ->
  description (createModuleInstallFix env a) = "Install missing module: " +:+ X.
Proof.
  intros Hne Hl Hm. unfold createModuleInstallFix. cbn [description].
  assert (HX : Js.or X "unknown" = X) by (destruct X; [congruence | reflexivity]).
  destruct Hm as [-> | ->].
  - rewrite (moduleRe_cannot_find X Hne Hl). cbn. rewrite HX. reflexivity.
  - rewrite (moduleRe_not_found X Hne Hl). cbn. rewrite HX. reflexivity.
Qed.

End ModuleName.

(** ** The end-to-end scenarios of the specification *)

Section Scenarios.
Import DebugEngine.

Example scenario_left_pad :
  let context := captured "node app.js" "" "Error: Cannot find module 'left-pad'" in
  ((fun a => (type a, message a)) <$> ErrorDetector.detect context)
  = Some (MODULE, "Cannot find module 'left-pad'")
  /\ kinds_and_descriptions (ready calm "Error: Cannot find module 'left-pad'")
     = Some [(FixType.INSTALL_PACKAGE, "Install missing module: left-pad")].
Proof. split; vm_compute; reflexivity. Qed.

Example scenario_gitx :
  ((fun a => (type a, message a)) <$> ErrorDetector.detect gitx_context)
  = Some (COMMAND, "command not found: gitx")
  /\ kinds_and_descriptions (ready calm "zsh: command not found: gitx")
     = Some [(FixType.COMMAND, "Install or add gitx to PATH")].
Proof. split; vm_compute; reflexivity. Qed.

(** Before [generateFixes], [applyFix] finds no fix and sets nothing. *)
Example scenario_apply_too_early :
  applyFix the_id 0 left_pad = (Throw (Error "Fix not found"), left_pad).
Proof. vm_compute. reflexivity. Qed.

End Scenarios.

(** * The rest of the code

    The functions of the cited files that no claim rests on
    ([ErrorDetector.extractTraceback], [OllamaService.streamResponse], the
    command executor of [utils/commandExecutor.ts]), and properties of the
    whole: what the regular expressions can return, what each method does at
    its edges, and what the store keeps invariant.  The command line
    ([cli/index.ts]) and the terminal helpers ([utils/terminal.ts]) print
    coloured text with characters beyond the 8-bit strings of this embedding,
    read the keyboard and end the process; they are not embedded. *)

(** ** More of JavaScript's strings *)

Module Text.

(** [s.split(sep)] for a separator of one character. *)
Fixpoint split (sep : ascii) (s : string) : list string :=
  match s with
  | "" => [""]
  | String a s' =>
      if Ascii.eqb a sep then "" :: split sep s'
      else
        match split sep s' with
        | [] => [String a ""]
        | piece :: pieces => String a piece :: pieces
        end
  end.

(** [pieces.join(sep)] *)
Fixpoint join (sep : string) (pieces : list string) : string :=
  match pieces with
  | [] => ""
  | [piece] => piece
  | piece :: rest => piece +:+ sep +:+ join sep rest
  end.

(** [s.includes(needle)] *)
Fixpoint includes (needle s : string) : bool :=
  match Js.strip_prefix needle s with
  | Some _ => true
  | None =>
      match s with
      | "" => false
      | String _ s' => includes needle s'
      end
  end.

(** Every character of the text belongs to the set. *)
Fixpoint all_in (c : cset) (s : string) : bool :=
  match s with
  | "" => true
  | String a s' => cset_mem c a && all_in c s'
  end.

(** The text is a contiguous part of another. *)
Definition substring_of (part s : string) : Prop :=
  exists before behind, s = before +:+ part +:+ behind.

End Text.

(** ** The traceback ([src/core/errorDetector.ts], [extractTraceback]) *)

Module Traceback.

Definition marks (line : string) : bool :=
  Text.includes "at " line || Text.includes "File " line.

(** The loop over the lines, with the flag [inTraceback]. *)
Fixpoint loop (lines : list string) (inTraceback : bool) : list string :=
  match lines with
  | [] => []
  | line :: rest =>
      let inTraceback := if marks line then true else inTraceback in
      if inTraceback then Js.trim line :: loop rest inTraceback
      else loop rest inTraceback
  end.

Definition extractTraceback (error : string) : list string :=
  loop (Text.split Js.newline error) false.

(** The lines from the first marked one on. *)
Fixpoint from_first_mark (lines : list string) : list string :=
  match lines with
  | [] => []
  | line :: rest => if marks line then lines else from_first_mark rest
  end.

End Traceback.

(** ** What a match can be *)

(** [matched r m added]: the text [m] is an occurrence of the pattern [r], and
    [added] are the groups it records, latest first. *)
Fixpoint matched (r : regex) (m : string) (added : captures) : Prop :=
  match r with
  | Lit l => m = l /\ added = []
  | Plus c => m <> "" /\ Text.all_in c m = true /\ added = []
  | Star c => Text.all_in c m = true /\ added = []
  | Group n r1 => exists a1, matched r1 m a1 /\ added = (n, m) :: a1
  | Seq r1 r2 =>
      exists m1 m2 a1 a2,
        m = m1 +:+ m2 /\ matched r1 m1 a1 /\ matched r2 m2 a2
        /\ added = (a2 ++ a1)%list
  | Alt r1 r2 => matched r1 m added \/ matched r2 m added
  | Opt r1 => (m = "" /\ added = []) \/ matched r1 m added
  end.

(** ** The command executor ([src/utils/commandExecutor.ts]): embedding *)

Module CommandExecutor.

Inductive Stream : Type := Out | Err.

(** The event that settles the promise: [close] with an exit code ([None] is
    [null], a process ended by a signal) or [error] with a message. *)
Inductive Ending : Type :=
| Close (code : option Z)
| SpawnError (message : string).

(** What a spawned process does until the promise is settled: the [data]
    events of its two streams in the order they arrive, the [close] or [error]
    event that comes first, and the two readings of [Date.now()]. *)
Record Spawned : Type := {
  chunks : list (Stream * string);
  ending : Ending;
  started : Z;
  ended : Z
}.

(** The process around the executor.  [spawn] throws when [child_process]
    refuses its arguments; inside the promise's executor that rejects the
    promise. *)
Record System : Type := {
  process_cwd : string;
  newDate : Z;
  spawn : string -> list string -> string -> outcome Spawned
}.

Record ExecutionResult : Type := {
  stdout : string;
  stderr : string;
  exitCode : Z;
  duration : Z
}.

Definition is_stream (s : Stream) (c : Stream * string) : bool :=
  match s, fst c with
  | Out, Out | Err, Err => true
  | _, _ => false
  end.

(** The text a stream's [data] handler has accumulated. *)
Fixpoint collected (s : Stream) (l : list (Stream * string)) : string :=
  match l with
  | [] => ""
  | c :: l' => if is_stream s c then snd c +:+ collected s l' else collected s l'
  end.

Definition executeCommand (sys : System) (command : string) (cwd : option string)
    : outcome ExecutionResult :=
  let pieces := Text.split " " command in
  let cmd := hd "" pieces in
  let args := tl pieces in
  let dir := match cwd with Some d => Js.or d (process_cwd sys) | None => process_cwd sys end in
  match spawn sys cmd args dir with
  | Throw e => Throw e
  | Ok run =>
      match ending run with
      | Close code =>
          Ok {| stdout := Js.trim (collected Out (chunks run));
                stderr := Js.trim (collected Err (chunks run));
                exitCode := default 0 code;
                duration := ended run - started run |}
      | SpawnError message =>
          Ok {| stdout := Js.trim (collected Out (chunks run));
                stderr := Js.trim (collected Err (chunks run) +:+ message);
                exitCode := 1;
                duration := ended run - started run |}
      end
  end.

Definition captureLastCommand (sys : System) : option string :=
  match executeCommand sys "fc -ln -1" None with
  | Ok result =>
      if Z.eqb (exitCode result) 0 && Js.truthy (stdout result)
      then Some (Js.trim (stdout result))
      else None
  | Throw _ => None
  end.

Definition createDebugContext (sys : System) (command : string)
    (result : ExecutionResult) : DebugContext :=
  {| command := command;
     output := stdout result;
     error := stderr result;
     workingDirectory := process_cwd sys;
     timestamp := newDate sys |}.

End CommandExecutor.

(** ** The streamed answer ([src/services/ollamaService.ts], [streamResponse]):
    embedding *)

Module Streaming.
Section WithClient.
Variable env : Env.

(** [ollama.generate] called with [stream: true].  The call itself may
    reject.  When it answers, the stream yields parts, of which the code reads
    the [response] field (the empty text also stands for a part without one),
    and may end with an error. *)
Variable generate_stream : GenerateRequest -> W (list string * option exn).
Local Open Scope world_scope.

(** The [for await] loop, with [fullResponse] as it stands. *)
Fixpoint consume (parts : list string) (onChunk : option (string -> W unit))
    (fullResponse : string) : W string :=
  match parts with
  | [] => World.ret fullResponse
  | response :: parts' =>
      if Js.truthy response then
        match onChunk with
        | Some callback => callback response
        | None => World.ret tt
        end ;;
        consume parts' onChunk (fullResponse +:+ response)
      else consume parts' onChunk fullResponse
  end.

Definition streamResponse (prompt : string) (config : option ModelConfig)
    (onChunk : option (string -> W unit)) : W string :=
  let modelName := OllamaService.or_default (config ≫= name) OllamaService.defaultModel in
  let* has := OllamaService.hasModel env modelName in
  if negb has then
    World.throw (Error ("Model " +:+ modelName +:+ " not found. Please pull it first."))
  else
    let* stream :=
      generate_stream
        {| model := modelName;
           prompt := prompt;
           system := config ≫= systemPrompt;
           temperature := default 0.7%Q (config ≫= cfg_temperature);
           num_predict := default 2048 (config ≫= maxTokens) |} in
    let* fullResponse := consume (fst stream) onChunk "" in
    match snd stream with
    | Some e => World.throw e
    | None => World.ret fullResponse
    end.

End WithClient.
End Streaming.

(** ** Vocabulary of the further statements *)

(** A text whose first character is not white space. *)
Definition starts_clean (s : string) : Prop :=
  match s with "" => True | String a _ => Js.is_space a = false end.

Definition unknown_of (text : string) : ErrorAnalysis :=
  {| type := UNKNOWN; message := Js.first_line text;
     file := None; line := None; suggestion := None; confidence := 0.5 |}.

Definition path_chars : cset := NoneOf ["("; ")"; ":"]%char.

(** The session [createSession] stores. *)
Definition new_session (sessionId : string) (now : Z) (context : DebugContext)
    : DebugSession :=
  {| id_ := sessionId; startTime := now; context := context;
     analysis := None; fixes := None; applied := false |}.

(** Every session is stored under its own identifier. *)
Definition well_keyed (st : Engine) : Prop :=
  forall sessionId s, sessions st !! sessionId = Some s -> id_ s = sessionId.

(** A method that does not write to the store. *)
Definition still {A} (c : M A) : Prop :=
  forall st, sessions (snd (c st)) = sessions st.

(** What a session keeps from one state of the store to a later one. *)
Definition kept (s s' : DebugSession) : Prop :=
  id_ s' = id_ s /\ context s' = context s /\ startTime s' = startTime s
  /\ (applied s = true -> applied s' = true)
  /\ (is_Some (analysis s) -> is_Some (analysis s'))
  /\ (is_Some (fixes s) -> is_Some (fixes s')).

(** The prompt [createAIFix] sends. *)
Definition fix_prompt (s : DebugSession) : string :=
  nl +:+ "Given this error:" +:+ nl
  +:+ Js.or (error (context s)) (output (context s)) +:+ nl
  +:+ nl +:+ "From command: " +:+ command (context s) +:+ nl
  +:+ "In directory: " +:+ workingDirectory (context s) +:+ nl
  +:+ nl
  +:+ "Provide a specific fix command that can be executed to resolve this issue." +:+ nl
  +:+ "Respond with ONLY the command, no explanation.".

(** The fix [createAIFix] builds from an answer that is not blank. *)
Definition suggested_fix (env : Env) (s : DebugSession) (fixCommand : string) : Fix :=
  {| fix_type := FixType.COMMAND;
     description := "Run suggested fix: " +:+ Js.trim fixCommand;
     fix_confidence := 0.6;
     apply := DebugEngine.execAsync env (Js.trim fixCommand) (Some (workingDirectory (context s))) |}.

Definition asks_gateway (C : ErrorType) : bool :=
  match C with
  | MODULE | COMMAND | PERMISSION => false
  | _ => true
  end.

Definition is_access (e : Event) : bool :=
  match e with FsAccess _ _ => true | _ => false end.

Definition manager_names : list string := ["bun"; "pnpm"; "yarn"; "npm"].

(** The request [generateResponse] sends. *)
Definition request_of (prompt : string) (config : option ModelConfig) : GenerateRequest :=
  {| model := OllamaService.or_default (config ≫= name) OllamaService.defaultModel;
     prompt := prompt;
     system := config ≫= systemPrompt;
     temperature := default 0.7%Q (config ≫= cfg_temperature);
     num_predict := default 2048 (config ≫= maxTokens) |}.

(** The history after [listModels]. *)
Definition listed (env : Env) (h : history) : history :=
  match env_list env h with
  | Ok l => OllamaList (Ok l) :: h
  | Throw e => ConsoleError "Failed to list models:" e :: OllamaList (Throw e) :: h
  end.

(** The models [listModels] returns. *)
Definition models_of (env : Env) (h : history) : list string :=
  match env_list env h with Ok l => l | Throw _ => [] end.

(** A part of the download that is reported: [part.total && part.completed]. *)
Definition reported (part : Z * Z) : bool :=
  negb (Z.eqb (snd part) 0) && negb (Z.eqb (fst part) 0).

(** The progress lines written for the parts of a download, first part
    first. *)
Definition progress_lines (line : Z -> Z -> string) (parts : list (Z * Z)) : list Event :=
  map (fun part => StdoutWrite (line (fst part) (snd part))) (List.filter reported parts).

(** How the download ends once its parts are consumed. *)
Definition stream_end (err : option exn) : outcome unit :=
  match err with Some e => Throw e | None => Ok tt end.

Definition unavailable : exn :=
  Error "Ollama is not available. Please ensure Ollama is running.".

Definition pulling : Event :=
  ConsoleLog "Default model not found. Pulling llama3.2:latest...".

Definition downloaded : Event :=
  ConsoleLog (nl +:+ "Model downloaded successfully!").

Definition progress_line (env : Env) (completed total : Z) : string :=
  String Js.carriage_return "Downloading: " +:+ env_toFixed2 env completed total +:+ "%".

Definition with_world (st : Engine) (h : history) : Engine :=
  {| sessions := sessions st; world := h; invoked := invoked st |}.

Definition direct_pattern : regex := cat [Lit "command not found: "; any1 1].
Definition bash_pattern : regex :=
  cat [Lit "bash: "; any1 1; Lit ": command not found"].
Definition zsh_pattern : regex := cat [Lit "zsh: command not found: "; any1 1].

(** The texts of a list put end to end. *)
Definition glued (parts : list string) : string := fold_right String.append "" parts.

(** The chunks of a stream that are handed to [onChunk]. *)
Definition chunks_of (parts : list string) : list string := List.filter Js.truthy parts.

(** How a streamed answer ends once its parts are consumed. *)
Definition answer_end (parts : list string) (err : option exn) : outcome string :=
  match err with Some e => Throw e | None => Ok (glued parts) end.

(** ** Further sample inputs *)

Definition left_pad_context : DebugContext :=
  captured "node app.js" "" "Error: Cannot find module 'left-pad'".

(** A world where another model is installed. *)
Definition mistral_only : Env :=
  {| env_randomBytes := env_randomBytes calm; env_now := env_now calm;
     env_list := fun _ => Ok ["mistral:latest"];
     env_generate := env_generate calm; env_pull := env_pull calm;
     env_exec := env_exec calm; env_access := env_access calm;
     env_toFixed2 := env_toFixed2 calm |}.

(** A world whose model answers every prompt with white space. *)
Definition speechless : Env :=
  {| env_randomBytes := env_randomBytes calm; env_now := env_now calm;
     env_list := env_list calm;
     env_generate := fun _ _ => Ok "   ";
     env_pull := env_pull calm; env_exec := env_exec calm;
     env_access := env_access calm; env_toFixed2 := env_toFixed2 calm |}.

(** A world whose model answers every prompt with a command. *)
Definition helpful : Env :=
  {| env_randomBytes := env_randomBytes calm; env_now := env_now calm;
     env_list := env_list calm;
     env_generate := fun _ _ => Ok (" npm run build" +:+ nl);
     env_pull := env_pull calm; env_exec := env_exec calm;
     env_access := env_access calm; env_toFixed2 := env_toFixed2 calm |}.

(** A world whose model fails on every prompt. *)
Definition mute : Env :=
  {| env_randomBytes := env_randomBytes calm; env_now := env_now calm;
     env_list := env_list calm;
     env_generate := fun _ _ => Throw (Foreign "ollama" "connection reset");
     env_pull := env_pull calm; env_exec := env_exec calm;
     env_access := env_access calm; env_toFixed2 := env_toFixed2 calm |}.

(** A session whose stderr no rule resolves, diagnosed in a given world. *)
Definition puzzled (env : Env) : Engine :=
  after_all env
    [CreateSession (captured "node app.js" "" "TypeError: x is not a function");
     AnalyzeError the_id] fresh.

(** A process that prints a warning and an error, and exits with code 2. *)
Definition shell : CommandExecutor.System :=
  {| CommandExecutor.process_cwd := "/home/dev/app";
     CommandExecutor.newDate := 1700000000000;
     CommandExecutor.spawn := fun _ _ _ =>
       Ok {| CommandExecutor.chunks :=
               [(CommandExecutor.Out, "building" +:+ nl);
                (CommandExecutor.Err, "SyntaxError: Unexpected token }" +:+ nl)];
             CommandExecutor.ending := CommandExecutor.Close (Some 2);
             CommandExecutor.started := 10;
             CommandExecutor.ended := 35 |} |}.

Definition denied_script : DebugContext :=
  captured "deploy" ""
    ("Error: EACCES: permission denied" +:+ nl +:+ "    at run (/srv/deploy.sh:3:1)").

(** A client whose stream yields three parts, the second without text. *)
Definition chatty (req : GenerateRequest) : W (list string * option exn) :=
  fun h => (Ok (["Hel"; ""; "lo"], None), OllamaGenerate req (Ok "Hello") :: h).

(** ** Facts about texts *)

Section Strings.
Local Arguments String.append : simpl nomatch.

Lemma append_empty_r s : s +:+ "" = s.
Proof.
  induction s as [|a s IH]; [reflexivity|]. cbn [String.append]. rewrite IH.
  reflexivity.
Qed.

Lemma append_assoc s t u : (s +:+ t) +:+ u = s +:+ t +:+ u.
Proof.
  induction s as [|a s IH]; [reflexivity|].
  change (String a ((s +:+ t) +:+ u) = String a (s +:+ t +:+ u)). rewrite IH.
  reflexivity.
Qed.

Lemma strip_prefix_app p s rest : Js.strip_prefix p s = Some rest -> s = p +:+ rest.
Proof.
  revert s. induction p as [|a p IH]; intros s; cbn [Js.strip_prefix].
  - intros [= ->]. reflexivity.
  - destruct s as [|b s]; [discriminate|].
    destruct (Ascii.eqb a b) eqn:Hab; [|discriminate].
    apply Ascii.eqb_eq in Hab. subst b. intros H. rewrite (IH _ H). reflexivity.
Qed.

Lemma strip_prefix_self p rest : Js.strip_prefix p (p +:+ rest) = Some rest.
Proof.
  induction p as [|a p IH]; [reflexivity|].
  change (Js.strip_prefix (String a p) (String a (p +:+ rest)) = Some rest).
  cbn [Js.strip_prefix]. rewrite Ascii.eqb_refl. exact IH.
Qed.

Lemma trim_end_idempotent s : Js.trim_end (Js.trim_end s) = Js.trim_end s.
Proof.
  induction s as [|a s IH]; [reflexivity|]. cbn [Js.trim_end].
  destruct (Js.trim_end s) as [|b t] eqn:Ht.
  - destruct (Js.is_space a) eqn:Ha; [reflexivity|]. cbn. rewrite Ha. reflexivity.
  - cbn [Js.trim_end]. cbn [Js.trim_end] in IH.
    destruct (Js.trim_end t) as [|c u].
    + destruct (Js.is_space b); [discriminate IH|]. injection IH as <-. reflexivity.
    + injection IH as ->. reflexivity.
Qed.

Lemma trim_start_clean s : starts_clean (Js.trim_start s).
Proof.
  induction s as [|a s IH]; [exact I|]. cbn [Js.trim_start].
  destruct (Js.is_space a) eqn:Ha; [exact IH | exact Ha].
Qed.

Lemma trim_start_of_clean s : starts_clean s -> Js.trim_start s = s.
Proof. destruct s as [|a s]; [reflexivity|]. cbn. intros ->. reflexivity. Qed.

Lemma trim_end_clean s : starts_clean s -> starts_clean (Js.trim_end s).
Proof.
  destruct s as [|a s]; [intros _; exact I|]. cbn [starts_clean Js.trim_end].
  intros Ha. destruct (Js.trim_end s); [rewrite Ha|]; exact Ha.
Qed.

Lemma trim_idempotent s : Js.trim (Js.trim s) = Js.trim s.
Proof.
  unfold Js.trim.
  rewrite (trim_start_of_clean (Js.trim_end (Js.trim_start s)))
    by apply trim_end_clean, trim_start_clean.
  apply trim_end_idempotent.
Qed.

End Strings.

(** ** The matcher returns occurrences of the pattern *)

Section MatcherSound.
Local Arguments String.append : simpl nomatch.

Lemma star_run_sound c s (k : cont) res :
  star_run c s k = Some res ->
  exists m rest, s = m +:+ rest /\ Text.all_in c m = true /\ k m rest = Some res.
Proof.
  revert k. induction s as [|a s IH]; intros k; cbn [star_run].
  - intros H. exists "", "". auto.
  - destruct (cset_mem c a) eqn:Ha.
    + destruct (star_run c s (fun m rest => k (String a m) rest)) as [x|] eqn:Hs.
      * intros [= ->]. destruct (IH _ Hs) as (m & rest & -> & Hall & Hk).
        exists (String a m), rest. cbn [Text.all_in]. rewrite Ha, Hall. auto.
      * intros H. exists "", (String a s). auto.
    + intros H. exists "", (String a s). auto.
Qed.

Lemma plus_run_sound c s (k : cont) res :
  plus_run c s k = Some res ->
  exists m rest,
    s = m +:+ rest /\ m <> "" /\ Text.all_in c m = true /\ k m rest = Some res.
Proof.
  destruct s as [|a s]; cbn [plus_run]; [discriminate|].
  destruct (cset_mem c a) eqn:Ha; [|discriminate].
  intros H. destruct (star_run_sound _ _ _ _ H) as (m & rest & -> & Hall & Hk).
  exists (String a m), rest. cbn [Text.all_in]. rewrite Ha, Hall.
  repeat split; auto.
Qed.

Lemma mt_sound r : forall s c k res,
  mt r s c k = Some res ->
  exists m rest added,
    s = m +:+ rest /\ matched r m added /\ k m rest (added ++ c)%list = Some res.
Proof.
  induction r as [l|cs|cs|n r1 IH1|r1 IH1 r2 IH2|r1 IH1 r2 IH2|r1 IH1];
    intros s c k res; cbn [mt matched].
  - destruct (Js.strip_prefix l s) as [rest|] eqn:Hp; [|discriminate].
    intros H. exists l, rest, []. split; [apply strip_prefix_app, Hp|]. auto.
  - intros H. destruct (plus_run_sound _ _ _ _ H) as (m & rest & -> & Hne & Hall & Hk).
    exists m, rest, []. auto.
  - intros H. destruct (star_run_sound _ _ _ _ H) as (m & rest & -> & Hall & Hk).
    exists m, rest, []. auto.
  - intros H. destruct (IH1 _ _ _ _ H) as (m & rest & a1 & -> & Hm & Hk).
    exists m, rest, ((n, m) :: a1). split; [reflexivity|]. split; [eauto|exact Hk].
  - intros H. destruct (IH1 _ _ _ _ H) as (m1 & s1 & a1 & -> & Hm1 & Hk1).
    destruct (IH2 _ _ _ _ Hk1) as (m2 & s2 & a2 & -> & Hm2 & Hk2).
    exists (m1 +:+ m2), s2, (a2 ++ a1)%list.
    split; [symmetry; apply append_assoc|]. split.
    + exists m1, m2, a1, a2. auto.
    + rewrite <- app_assoc. exact Hk2.
  - destruct (mt r1 s c k) as [x|] eqn:H1.
    + intros [= ->]. destruct (IH1 _ _ _ _ H1) as (m & rest & added & ? & ? & ?).
      exists m, rest, added. auto.
    + intros H2. destruct (IH2 _ _ _ _ H2) as (m & rest & added & ? & ? & ?).
      exists m, rest, added. auto.
  - destruct (mt r1 s c k) as [x|] eqn:H1.
    + intros [= ->]. destruct (IH1 _ _ _ _ H1) as (m & rest & added & ? & ? & ?).
      exists m, rest, added. auto.
    + intros H. exists "", s, []. auto.
Qed.

Lemma match_here_sound r s res :
  match_here r s = Some res ->
  exists rest, s = whole res +:+ rest /\ matched r (whole res) (caps res).
Proof.
  unfold match_here. intros H.
  destruct (mt_sound _ _ _ _ _ H) as (m & rest & added & -> & Hm & [= <-]).
  exists rest. cbn [whole caps]. rewrite app_nil_r. auto.
Qed.

(** Whatever [s.match(r)] returns is an occurrence of [r] in [s]: the matched
    text is a contiguous part of [s], it has the shape of the pattern, and the
    groups hold the parts of it they enclose. *)
Lemma exec_sound (r : regex) (s : string) (res : MatchResult) :
  exec r s = Some res ->
  Text.substring_of (whole res) s /\ matched r (whole res) (caps res).
Proof.
  induction s as [|a s IH]; cbn [exec].
  - destruct (match_here r "") as [x|] eqn:Hh; [|discriminate].
    intros [= ->]. destruct (match_here_sound _ _ _ Hh) as (rest & Hs & Hm).
    split; [exists "", rest; exact Hs | exact Hm].
  - destruct (match_here r (String a s)) as [x|] eqn:Hh.
    + intros [= ->]. destruct (match_here_sound _ _ _ Hh) as (rest & Hs & Hm).
      split; [exists "", rest; exact Hs | exact Hm].
    + intros H. destruct (IH H) as [(before & behind & ->) Hm].
      split; [exists (String a before), behind; reflexivity | exact Hm].
Qed.

End MatcherSound.

(** ** The classifier: what a diagnosis can be *)

Section Diagnosis.
Import ErrorDetector.
Local Arguments String.append : simpl nomatch.

(** The two ways [detect] returns a diagnosis. *)
Lemma detect_some context a :
  detect context = Some a ->
  Js.truthy (errorText context) = true
  /\ ((first_hit scan_order (errorText context) = None
       /\ a = unknown_of (errorText context))
      \/ (exists C p m,
            In (C, p) scan_order
            /\ exec p (errorText context) = Some m
            /\ first_hit scan_order (errorText context) = Some (C, m)
            /\ a = createAnalysis C (whole m) (errorText context) (group 1 m))).
Proof.
  intros H.
  assert (Ht : Js.truthy (errorText context) = true).
  { unfold detect in H. destruct (Js.truthy (errorText context)); [reflexivity|].
    discriminate H. }
  split; [exact Ht|]. rewrite (detect_first_hit _ Ht) in H.
  destruct (first_hit scan_order (errorText context)) as [[C m]|] eqn:Hf.
  - right. destruct (first_hit_in _ _ _ _ Hf) as (p & Hin & Hp).
    exists C, p, m. injection H as <-. auto.
  - left. injection H as <-. auto.
Qed.

Lemma first_line_prefix s : exists rest, s = Js.first_line s +:+ rest.
Proof.
  induction s as [|a s [rest IH]]; [exists ""; reflexivity|].
  cbn [Js.first_line]. destruct (Ascii.eqb a Js.newline).
  - exists (String a s). reflexivity.
  - exists rest. cbn [String.append]. rewrite <- IH. reflexivity.
Qed.

Lemma substring_of_trans a b c :
  Text.substring_of a b -> Text.substring_of b c -> Text.substring_of a c.
Proof.
  intros (p1 & q1 & ->) (p2 & q2 & ->).
  exists (p2 +:+ p1), (q1 +:+ q2). rewrite !append_assoc. reflexivity.
Qed.

(** X1. The message of every diagnosis is a contiguous part of the classified
    text (stderr, or stdout when stderr is empty): for a recognised error the
    text a pattern matched, for an unknown one the beginning of the text up to
    its first line feed. *)
Theorem diagnosis_message_in_text (context : DebugContext) (a : ErrorAnalysis) :
  detect context = Some a ->
  Text.substring_of (message a) (errorText context)
  /\ (type a = UNKNOWN ->
      exists rest, errorText context = message a +:+ rest
                   /\ Text.includes (String Js.newline "") (message a) = false).
Proof.
  intros H. destruct (detect_some _ _ H) as [_ [[_ ->]|(C & p & m & Hin & Hp & _ & ->)]].
  - cbn [message type unknown_of].
    destruct (first_line_prefix (errorText context)) as [rest Hr].
    split; [exists "", rest; exact Hr|]. intros _. exists rest. split; [exact Hr|].
    clear. induction (errorText context) as [|c s IH]; [reflexivity|].
    cbn [Js.first_line]. destruct (Ascii.eqb c Js.newline) eqn:Hc; [reflexivity|].
    cbn [Text.includes Js.strip_prefix]. rewrite Ascii.eqb_sym, Hc. exact IH.
  - cbn [message type createAnalysis]. split; [apply (exec_sound _ _ _ Hp)|].
    intros ->.
    assert (Hall : forallb (fun e => negb match fst e with UNKNOWN => true | _ => false end)
                     scan_order = true) by (vm_compute; reflexivity).
    rewrite forallb_forall in Hall. specialize (Hall _ Hin). discriminate Hall.
Qed.

Lemma detect_absent_iff context :
  detect context = None <-> error context = "" /\ output context = "".
Proof.
  split.
  - intros H. destruct (Js.truthy (errorText context)) eqn:Ht.
    + rewrite (detect_first_hit _ Ht) in H. discriminate H.
    + unfold errorText, Js.or in Ht.
      destruct (error context); [|discriminate Ht].
      destruct (output context); [auto | discriminate Ht].
  - intros [He Ho]. unfold detect, errorText, Js.or. rewrite He, Ho. reflexivity.
Qed.

(** X2. [detect] returns nothing exactly when stderr and stdout are both
    empty; on any other context it returns a diagnosis, which is of category
    unknown exactly when no recognition pattern matches the classified text. *)
Theorem detect_absent_or_unknown (context : DebugContext) :
  (detect context = None <-> error context = "" /\ output context = "")
  /\ (forall a, detect context = Some a ->
        (type a = UNKNOWN <->
         forall C p, pattern_of C p -> exec p (errorText context) = None)).
Proof.
  split; [apply detect_absent_iff|].
  intros a H. destruct (detect_some _ _ H) as [_ [[Hf ->]|(C & p & m & Hin & Hp & Hf & ->)]].
  - split; [|reflexivity]. intros _ C p Hin.
    destruct (exec p (errorText context)) as [m|] eqn:Hp; [|reflexivity].
    assert (Hne : exec p (errorText context) <> None) by congruence.
    destruct (first_hit_exists _ _ _ _ Hin Hne) as (? & ? & ? & ? & ? & _ & _ & _ & Hf').
    congruence.
  - cbn [type createAnalysis]. split.
    + intros ->.
      assert (Hall : forallb (fun e => negb match fst e with UNKNOWN => true | _ => false end)
                       scan_order = true) by (vm_compute; reflexivity).
      rewrite forallb_forall in Hall. specialize (Hall _ Hin). discriminate Hall.
    + intros Hnone. rewrite (Hnone C p Hin) in Hp. discriminate.
Qed.

Lemma digit_not_space a : Js.is_digit a = true -> Js.is_space a = false.
Proof.
  unfold Js.is_digit, Js.is_space. set (n := Ascii.nat_of_ascii a).
  intros H. apply andb_true_iff in H as [H1 H2].
  apply Nat.leb_le in H1, H2.
  destruct (Nat.leb_spec 9 n), (Nat.leb_spec n 13), (Nat.eqb_spec n 32),
    (Nat.eqb_spec n 160); cbn; try reflexivity; lia.
Qed.

Lemma digit_value_range a : Js.is_digit a = true -> 0 <= Js.digit_value a <= 9.
Proof.
  unfold Js.is_digit, Js.digit_value. set (n := Ascii.nat_of_ascii a).
  intros H. apply andb_true_iff in H as [H1 H2].
  apply Nat.leb_le in H1, H2. lia.
Qed.

Lemma digits_from_nonneg s : forall acc, 0 <= acc -> 0 <= Js.digits_from acc s.
Proof.
  induction s as [|a s IH]; intros acc Hacc; cbn [Js.digits_from]; [exact Hacc|].
  destruct (Js.is_digit a) eqn:Ha; [|exact Hacc].
  apply IH. pose proof (digit_value_range a Ha). lia.
Qed.

(** [parseInt] of a text made of digits is a number, not [NaN], and not
    negative. *)
Lemma parseInt_digits d :
  d <> "" -> Text.all_in Digit d = true ->
  exists n, Js.parseInt d = Some n /\ 0 <= n.
Proof.
  destruct d as [|a d]; [congruence|]. intros _ Hall.
  cbn [Text.all_in cset_mem] in Hall. apply andb_true_iff in Hall as [Ha _].
  assert (Hsign : Ascii.eqb a "-" = false /\ Ascii.eqb a "+" = false).
  { split; destruct (Ascii.eqb_spec a "-"%char), (Ascii.eqb_spec a "+"%char);
      subst; try reflexivity; discriminate Ha. }
  destruct Hsign as [Hm Hp].
  exists (Js.digits_from 0 (String a d)). split; [|apply digits_from_nonneg; lia].
  unfold Js.parseInt. cbn [Js.trim_start]. rewrite (digit_not_space a Ha).
  assert (Hcase :
    match String a d with
    | String "-" u => (-1, u)
    | String "+" u => (1, u)
    | _ => (1, String a d)
    end = (1, String a d)).
  { destruct a as [[] [] [] [] [] [] [] []]; try reflexivity; discriminate. }
  rewrite Hcase. rewrite Ha. f_equal. lia.
Qed.

(** What the location pattern captures. *)
Lemma fileRe_captures text fm :
  exec fileRe text = Some fm ->
  exists f d,
    group 1 fm = Some f /\ group 2 fm = Some d
    /\ f <> "" /\ Text.all_in path_chars f = true
    /\ d <> "" /\ Text.all_in Digit d = true
    /\ Text.substring_of f text.
Proof.
  intros H. destruct (exec_sound _ _ _ H) as [Hsub Hm].
  unfold fileRe in Hm. cbn [cat matched] in Hm.
  destruct Hm as (m1 & m2 & a1 & a2 & Hw & _ & Hrest & Hcaps).
  destruct Hrest as (m3 & m4 & a3 & a4 & -> & _ & Hrest & ->).
  destruct Hrest as (f & m6 & a5 & a6 & -> & (a7 & (Hf & Hfall & ->) & ->) & Hrest & ->).
  destruct Hrest as (m7 & d & a8 & a9 & -> & (_ & ->) & (a10 & (Hd & Hdall & ->) & ->) & ->).
  exists f, d. unfold group. rewrite Hcaps. cbn.
  repeat split; auto.
  apply (substring_of_trans _ (whole fm)); [|exact Hsub].
  rewrite Hw. exists (m1 +:+ m3), (m7 +:+ d). rewrite !append_assoc. reflexivity.
Qed.

(** X3. A diagnosis carries a file exactly when it carries a line.  The file
    is then a non-empty part of the classified text without parenthesis or
    colon, and the line is a number that is not negative.  An unknown
    diagnosis carries neither. *)
Theorem diagnosis_location (context : DebugContext) (a : ErrorAnalysis) :
  detect context = Some a ->
  ((file a = None /\ line a = None)
   \/ (exists f n,
         file a = Some f /\ line a = Some n
         /\ f <> "" /\ Text.all_in path_chars f = true
         /\ Text.substring_of f (errorText context)
         /\ 0 <= n))
  /\ (type a = UNKNOWN -> file a = None /\ line a = None).
Proof.
  intros H. destruct (detect_some _ _ H) as [_ [[_ ->]|(C & p & m & Hin & Hp & _ & ->)]].
  - cbn. auto.
  - assert (HC : C <> UNKNOWN).
    { intros ->.
      assert (Hall : forallb (fun e => negb match fst e with UNKNOWN => true | _ => false end)
                       scan_order = true) by (vm_compute; reflexivity).
      rewrite forallb_forall in Hall. specialize (Hall _ Hin). discriminate Hall. }
    split; [|intros Ht; exfalso; apply HC, Ht].
    unfold createAnalysis. cbn [file line].
    destruct (exec fileRe (errorText context)) as [fm|] eqn:Hf; [|left; auto].
    destruct (fileRe_captures _ _ Hf) as (f & d & -> & -> & Hne & Hall & Hd & Hdall & Hsub).
    destruct (parseInt_digits d Hd Hdall) as (n & -> & Hn).
    right. exists f, n. auto 10.
Qed.

Lemma diagnosis_location_witness :
  exists a,
    detect traced_error = Some a
    /\ exists f n,
         file a = Some f /\ line a = Some n
         /\ Text.substring_of f (errorText traced_error) /\ 0 <= n.
Proof.
  destruct (detect traced_error) as [a|] eqn:H; [|vm_compute in H; discriminate H].
  exists a. split; [reflexivity|].
  destruct (proj1 (diagnosis_location traced_error a H))
    as [[Hf _]|(f & n & Hf & Hl & _ & _ & Hs & Hn)].
  - vm_compute in H. injection H as <-. discriminate Hf.
  - exists f, n. auto.
Defined.

(** The patterns of the module and command categories have one of two
    shapes: a literal and [(.+)], or the same followed by a literal. *)
Lemma named_pattern_shape C p :
  In (C, p) scan_order -> C = MODULE \/ C = COMMAND ->
  (exists l, p = Seq (Lit l) (Group 1 (Plus Dot)))
  \/ (exists l1 l2, p = Seq (Lit l1) (Seq (Group 1 (Plus Dot)) (Lit l2))).
Proof.
  intros Hin HC. unfold scan_order in Hin. cbn in Hin.
  repeat (destruct Hin as [Hin|Hin];
          [injection Hin as <- <-;
           first [ left; eexists; reflexivity
                 | right; eexists; eexists; reflexivity
                 | destruct HC; discriminate ] |]).
  destruct Hin.
Qed.

Lemma named_pattern_detail C p m added :
  In (C, p) scan_order -> C = MODULE \/ C = COMMAND ->
  matched p m added ->
  exists X, capture 1 added = Some X /\ X <> "" /\ Text.all_in Dot X = true
            /\ Text.substring_of X m.
Proof.
  intros Hin HC Hm.
  destruct (named_pattern_shape C p Hin HC) as [[l ->]|(l1 & l2 & ->)];
    cbn [matched] in Hm.
  - destruct Hm as (m1 & X & a1 & a2 & -> & (_ & ->) & (a3 & (Hne & Hall & ->) & ->) & ->).
    exists X. cbn. repeat split; auto. exists m1, "". rewrite append_empty_r. reflexivity.
  - destruct Hm as (m1 & m2 & a1 & a2 & -> & (_ & ->) & Hrest & ->).
    destruct Hrest as (X & m3 & a3 & a4 & -> & (a5 & (Hne & Hall & ->) & ->) & (_ & ->) & ->).
    exists X. cbn. repeat split; auto. exists m1, m3. reflexivity.
Qed.

(** X4. The suggestion [detect] attaches depends on the category alone:
    none for syntax, type, runtime and unknown diagnoses; the fixed hint for
    permission; for module and command the sentence built around the name the
    pattern captured, which is always present (the template never prints
    [undefined]), not empty, on one line, and part of the message. *)
Theorem diagnosis_suggestion (context : DebugContext) (a : ErrorAnalysis) :
  detect context = Some a ->
  match type a with
  | MODULE =>
      exists X, suggestion a = Some ("Install missing module: " +:+ X)
                /\ X <> "" /\ Text.all_in Dot X = true
                /\ Text.substring_of X (message a)
  | COMMAND =>
      exists X, suggestion a
                = Some ("Command not found: " +:+ X
                        +:+ ". Check if it's installed or in PATH.")
                /\ X <> "" /\ Text.all_in Dot X = true
                /\ Text.substring_of X (message a)
  | PERMISSION =>
      suggestion a
      = Some "Try running with elevated permissions or check file ownership."
  | _ => suggestion a = None
  end.
Proof.
  intros H. destruct (detect_some _ _ H) as [_ [[_ ->]|(C & p & m & Hin & Hp & _ & ->)]];
    [reflexivity|].
  destruct (exec_sound _ _ _ Hp) as [_ Hm].
  cbn [type message suggestion createAnalysis].
  destruct C; try reflexivity.
  - destruct (named_pattern_detail _ _ _ _ Hin (or_intror eq_refl) Hm)
      as (X & HX & Hne & Hall & Hsub).
    exists X. unfold group. rewrite HX. auto.
  - destruct (named_pattern_detail _ _ _ _ Hin (or_introl eq_refl) Hm)
      as (X & HX & Hne & Hall & Hsub).
    exists X. unfold group. rewrite HX. auto.
Qed.

Lemma diagnosis_suggestion_witness :
  exists a X,
    detect left_pad_context = Some a
    /\ type a = MODULE
    /\ suggestion a = Some ("Install missing module: " +:+ X)
    /\ X <> "".
Proof.
  destruct (detect left_pad_context) as [a|] eqn:H; [|vm_compute in H; discriminate H].
  pose proof (diagnosis_suggestion left_pad_context a H) as Hs.
  assert (Ht : type a = MODULE) by (vm_compute in H; injection H as <-; reflexivity).
  rewrite Ht in Hs. destruct Hs as (X & Hs & Hne & _).
  exists a, X. auto.
Defined.

Lemma diagnosis_message_in_text_witness :
  exists a,
    detect left_pad_context = Some a
    /\ Text.substring_of (message a) (errorText left_pad_context).
Proof.
  destruct (detect left_pad_context) as [a|] eqn:H; [|vm_compute in H; discriminate H].
  exists a. split; [reflexivity|].
  apply (proj1 (diagnosis_message_in_text left_pad_context a H)).
Defined.

Lemma detect_absent_or_unknown_witness :
  detect (captured "true" "" "") = None
  /\ exists a, detect random_error = Some a /\ type a = UNKNOWN.
Proof.
  split.
  - apply (proj1 (detect_absent_or_unknown (captured "true" "" ""))). auto.
  - destruct (detect random_error) as [a|] eqn:H; [|vm_compute in H; discriminate H].
    exists a. split; [reflexivity|].
    apply (proj2 (detect_absent_or_unknown random_error) a H).
    intros C p Hp.
    assert (Hall : forallb (fun e => negb (matches (snd e) (errorText random_error)))
                     scan_order = true) by (vm_compute; reflexivity).
    rewrite forallb_forall in Hall. specialize (Hall _ Hp). simpl in Hall.
    unfold matches in Hall.
    destruct (exec p (errorText random_error)); [discriminate | reflexivity].
Defined.

End Diagnosis.

(** ** The traceback *)

Section TracebackFacts.
Import Traceback.

Lemma loop_started lines : loop lines true = map Js.trim lines.
Proof.
  induction lines as [|l lines IH]; [reflexivity|]. cbn [loop map].
  destruct (marks l); rewrite IH; reflexivity.
Qed.

Lemma loop_waiting lines : loop lines false = map Js.trim (from_first_mark lines).
Proof.
  induction lines as [|l lines IH]; [reflexivity|]. cbn [loop from_first_mark].
  destruct (marks l); [|exact IH]. rewrite loop_started. reflexivity.
Qed.

Lemma from_first_mark_empty lines :
  from_first_mark lines = [] <-> forallb (fun l => negb (marks l)) lines = true.
Proof.
  induction lines as [|l lines IH]; [cbn; tauto|]. cbn [from_first_mark forallb].
  destruct (marks l); cbn; [split; discriminate | exact IH].
Qed.

Lemma from_first_mark_length lines :
  (length (from_first_mark lines) <= length lines)%nat.
Proof.
  induction lines as [|l lines IH]; [reflexivity|]. cbn [from_first_mark].
  destruct (marks l); cbn [length]; lia.
Qed.

(** X5. [extractTraceback] returns, trimmed, every line from the first one
    that contains [at ] or [File ] to the end of the text, marked or not; it
    returns the empty list exactly when no line is marked; and no entry has
    white space left at either end. *)
Theorem extractTraceback_lines (error : string) :
  extractTraceback error
  = map Js.trim (from_first_mark (Text.split Js.newline error))
  /\ (extractTraceback error = []
      <-> forallb (fun l => negb (marks l)) (Text.split Js.newline error) = true)
  /\ Forall (fun l => Js.trim l = l) (extractTraceback error)
  /\ (length (extractTraceback error) <= length (Text.split Js.newline error))%nat.
Proof.
  unfold extractTraceback. rewrite loop_waiting. split; [reflexivity|]. split; [|split].
  - rewrite <- from_first_mark_empty.
    destruct (from_first_mark (Text.split Js.newline error)); cbn; split;
      congruence.
  - apply List.Forall_forall. intros l Hl. apply in_map_iff in Hl as (l0 & <- & _).
    apply trim_idempotent.
  - rewrite length_map. apply from_first_mark_length.
Qed.

End TracebackFacts.

(** ** The command executor ([src/utils/commandExecutor.ts]) *)

Section Executor.
Import CommandExecutor.
Local Arguments String.append : simpl nomatch.

Lemma split_nonempty sep s : Text.split sep s <> [].
Proof.
  destruct s as [|a s]; cbn [Text.split]; [discriminate|].
  destruct (Ascii.eqb a sep); [discriminate|].
  destruct (Text.split sep s); discriminate.
Qed.

Lemma join_cons sep piece rest :
  rest <> [] -> Text.join sep (piece :: rest) = piece +:+ sep +:+ Text.join sep rest.
Proof. destruct rest; [congruence | reflexivity]. Qed.

(** Joining what [split] cut gives the text back. *)
Lemma join_split sep s : Text.join (String sep "") (Text.split sep s) = s.
Proof.
  induction s as [|a s IH]; [reflexivity|]. cbn [Text.split].
  pose proof (split_nonempty sep s) as Hne.
  destruct (Ascii.eqb a sep) eqn:Ha.
  - apply Ascii.eqb_eq in Ha. subst a.
    rewrite (join_cons _ _ _ Hne), IH. reflexivity.
  - destruct (Text.split sep s) as [|p ps]; [congruence|].
    destruct ps as [|q ps].
    + cbn [Text.join] in *. rewrite IH. reflexivity.
    + rewrite join_cons by discriminate. rewrite join_cons in IH by discriminate.
      rewrite <- IH. reflexivity.
Qed.

Lemma split_pieces_clean sep s :
  Forall (fun piece => Text.includes (String sep "") piece = false) (Text.split sep s).
Proof.
  induction s as [|a s IH]; cbn [Text.split].
  - constructor; [reflexivity | constructor].
  - destruct (Ascii.eqb a sep) eqn:Ha.
    + constructor; [reflexivity | exact IH].
    + destruct (Text.split sep s) as [|p ps]; [constructor; [|constructor]|].
      * cbn. rewrite Ascii.eqb_sym, Ha. reflexivity.
      * inversion IH as [|? ? Hp Hps]; subst. constructor; [|exact Hps].
        cbn [Text.includes Js.strip_prefix]. rewrite Ascii.eqb_sym, Ha. exact Hp.
Qed.

(** What [executeCommand] resolves with. *)
Lemma executeCommand_ok sys command cwd r :
  executeCommand sys command cwd = Ok r ->
  exists run,
    spawn sys (hd "" (Text.split " " command)) (tl (Text.split " " command))
      (match cwd with Some d => Js.or d (process_cwd sys) | None => process_cwd sys end)
    = Ok run
    /\ Js.trim (stdout r) = stdout r
    /\ Js.trim (stderr r) = stderr r
    /\ stdout r = Js.trim (collected Out (chunks run))
    /\ match ending run with
       | Close code =>
           exitCode r = default 0 code
           /\ stderr r = Js.trim (collected Err (chunks run))
       | SpawnError message =>
           exitCode r = 1
           /\ stderr r = Js.trim (collected Err (chunks run) +:+ message)
       end.
Proof.
  unfold executeCommand. destruct (spawn sys _ _ _) as [run|e0]; [|discriminate].
  intros Hr. exists run. split; [reflexivity|].
  destruct (ending run); injection Hr as <-; cbn [stdout stderr exitCode];
    rewrite !trim_idempotent; auto.
Qed.

(** X6. [executeCommand] hands [spawn] the command text cut at its single
    spaces (joined with spaces the pieces give the text back, and no piece
    holds a space).  It rejects only when [spawn] itself throws.  Otherwise it
    resolves with both outputs trimmed; the exit code is the one the process
    closed with, 0 when it closed without a code, and 1, with the error's
    message at the end of stderr, when the process could not be run. *)
Theorem executeCommand_result (sys : System) (command : string) (cwd : option string) :
  let pieces := Text.split " " command in
  let dir := match cwd with Some d => Js.or d (process_cwd sys) | None => process_cwd sys end in
  Text.join " " (hd "" pieces :: tl pieces) = command
  /\ Forall (fun piece => Text.includes " " piece = false) (hd "" pieces :: tl pieces)
  /\ (forall e, executeCommand sys command cwd = Throw e
                <-> spawn sys (hd "" pieces) (tl pieces) dir = Throw e)
  /\ (forall r, executeCommand sys command cwd = Ok r ->
        exists run,
          spawn sys (hd "" pieces) (tl pieces) dir = Ok run
          /\ Js.trim (stdout r) = stdout r
          /\ Js.trim (stderr r) = stderr r
          /\ stdout r = Js.trim (collected Out (chunks run))
          /\ match ending run with
             | Close code =>
                 exitCode r = default 0 code
                 /\ stderr r = Js.trim (collected Err (chunks run))
             | SpawnError message =>
                 exitCode r = 1
                 /\ stderr r = Js.trim (collected Err (chunks run) +:+ message)
             end).
Proof.
  cbv zeta. split; [|split; [|split]].
  - pose proof (split_nonempty " " command) as Hne.
    pose proof (join_split " " command) as Hj.
    destruct (Text.split " " command); [congruence | exact Hj].
  - pose proof (split_nonempty " " command) as Hne.
    pose proof (split_pieces_clean " " command) as Hc.
    destruct (Text.split " " command); [congruence | exact Hc].
  - intros e. unfold executeCommand. destruct (spawn sys _ _ _) as [run|e0].
    + destruct (ending run); split; discriminate.
    + split; intros [= ->]; reflexivity.
  - intros r Hr. apply (executeCommand_ok sys command cwd r Hr).
Qed.

Lemma trim_clean s : starts_clean (Js.trim s).
Proof. unfold Js.trim. apply trim_end_clean, trim_start_clean. Qed.

(** X7. [captureLastCommand] never throws.  It returns a command only when
    the history command ran and closed with code 0 (or without a code) and
    printed something else than white space; the command returned is that
    output, not empty and trimmed.  In every other case, also when [spawn]
    throws, it returns nothing. *)
Theorem captureLastCommand_result (sys : System) :
  (forall s, captureLastCommand sys = Some s ->
     s <> "" /\ Js.trim s = s
     /\ exists run,
          spawn sys "fc" ["-ln"; "-1"] (process_cwd sys) = Ok run
          /\ (ending run = Close (Some 0) \/ ending run = Close None)
          /\ s = Js.trim (collected Out (chunks run)))
  /\ (captureLastCommand sys = None <->
      match executeCommand sys "fc -ln -1" None with
      | Ok r => exitCode r <> 0 \/ stdout r = ""
      | Throw _ => True
      end).
Proof.
  unfold captureLastCommand. split.
  - intros s.
    destruct (executeCommand sys "fc -ln -1" None) as [r|e] eqn:Hrun; [|discriminate].
    destruct (Z.eqb_spec (exitCode r) 0) as [Hcode|]; [|discriminate].
    destruct (stdout r) as [|c t] eqn:Hout; [discriminate|].
    cbn [andb Js.truthy]. intros [= <-].
    destruct (executeCommand_ok sys "fc -ln -1" None r Hrun)
      as (run & Hspawn & Htrim & _ & Hstd & Hend).
    rewrite Hout in Htrim, Hstd. rewrite !Htrim. split; [discriminate|].
    split; [reflexivity|]. exists run. split; [exact Hspawn|]. split; [|exact Hstd].
    destruct (ending run) as [[code|]|msg].
    + left. destruct Hend as [Hc _]. cbn in Hc. congruence.
    + right. reflexivity.
    + destruct Hend as [Hc _]. congruence.
  - destruct (executeCommand sys "fc -ln -1" None) as [r|e]; [|tauto].
    destruct (Z.eqb_spec (exitCode r) 0) as [Hcode|Hcode]; cbn [andb].
    + destruct (stdout r); cbn [Js.truthy]; split; auto; try discriminate.
      intros [H|H]; congruence.
    + split; auto.
Qed.

(** Every recognition pattern starts with a literal that is not empty. *)
Lemma pattern_starts_with_literal C p :
  In (C, p) scan_order ->
  exists l, l <> "" /\ (p = Lit l \/ exists r, p = Seq (Lit l) r).
Proof.
  intros Hin. unfold scan_order in Hin. cbn in Hin.
  repeat (destruct Hin as [Hin|Hin];
          [injection Hin as <- <-; eexists;
           (split; [|first [left; reflexivity | right; eexists; reflexivity]]);
           discriminate |]).
  destruct Hin.
Qed.

Lemma append_nonempty_l s t : s <> "" -> s +:+ t <> "".
Proof. destruct s; [congruence | discriminate]. Qed.

Lemma first_line_of_clean s : s <> "" -> starts_clean s -> Js.first_line s <> "".
Proof.
  destruct s as [|a s]; [congruence|]. intros _ Ha. cbn [starts_clean] in Ha.
  cbn [Js.first_line]. destruct (Ascii.eqb_spec a Js.newline) as [->|]; [|discriminate].
  discriminate Ha.
Qed.

(** X8. The context built from an executed command classifies the trimmed
    stderr, or the trimmed stdout when the stderr is blank; it gets no
    diagnosis exactly when both are blank; and every diagnosis it gets has a
    message that is not empty. *)
Theorem executed_context_diagnosis (sys : System) (command : string)
    (r : ExecutionResult) (cwd : option string) :
  executeCommand sys command cwd = Ok r ->
  let context := createDebugContext sys command r in
  Js.trim (ErrorDetector.errorText context) = ErrorDetector.errorText context
  /\ (ErrorDetector.detect context = None <-> stderr r = "" /\ stdout r = "")
  /\ (forall a, ErrorDetector.detect context = Some a -> message a <> "").
Proof.
  intros Hrun context.
  destruct (executeCommand_ok sys command cwd r Hrun)
    as (run & _ & Hout & Herr & _).
  assert (Htext : ErrorDetector.errorText context = stderr r
                  \/ ErrorDetector.errorText context = stdout r).
  { unfold ErrorDetector.errorText, Js.or, context. cbn [error output createDebugContext].
    destruct (Js.truthy (stderr r)); auto. }
  assert (Htrim : Js.trim (ErrorDetector.errorText context)
                  = ErrorDetector.errorText context)
    by (destruct Htext as [-> | ->]; assumption).
  split; [exact Htrim|]. split.
  - apply detect_absent_iff.
  - intros a Ha.
    destruct (detect_some _ _ Ha) as [Ht [[_ ->]|(C & p & m & Hin & Hp & _ & ->)]].
    + cbn [message unknown_of]. apply first_line_of_clean.
      * destruct (ErrorDetector.errorText context); [discriminate Ht | discriminate].
      * rewrite <- Htrim. apply trim_clean.
    + cbn [message ErrorDetector.createAnalysis].
      destruct (exec_sound _ _ _ Hp) as [_ Hm].
      destruct (pattern_starts_with_literal C p Hin) as (l & Hl & [-> | [r0 ->]]);
        cbn [matched] in Hm.
      * destruct Hm as [-> _]. exact Hl.
      * destruct Hm as (m1 & m2 & a1 & a2 & -> & (-> & _) & _).
        apply append_nonempty_l, Hl.
Qed.

End Executor.

(** ** The session store *)

Section Store.
Import DebugEngine.

(** X9. [createSession] never throws.  It returns the identifier the random
    source gave, and a lookup of that identifier then finds a session with the
    given context, no diagnosis, no fixes and [applied] false, also when a
    session was already stored under it, which is thereby replaced.  Sessions
    under other identifiers are untouched. *)
Theorem createSession_lookup (env : Env) (context : DebugContext) (st : Engine) :
  let sessionId := env_randomBytes env (world st) 8 in
  exists now st',
    createSession env context st = (Ok sessionId, st')
    /\ getSession sessionId st' = (Ok (Some (new_session sessionId now context)), st')
    /\ (forall other, other <> sessionId ->
          sessions st' !! other = sessions st !! other)
    /\ invoked st' = invoked st.
Proof.
  cbv zeta. unfold createSession, getSession, Eng.bind, Eng.lift, Eng.set, Eng.ret,
    Eng.get, World.ask. cbn.
  eexists. eexists. split; [reflexivity|]. cbn. split; [|split; [|reflexivity]].
  - rewrite lookup_insert_eq. reflexivity.
  - intros other Hne. rewrite lookup_insert_ne by congruence. reflexivity.
Qed.

(** X10. [analyzeError] throws [Error('Session not found')] for an unknown
    identifier, and returns nothing for a session whose stderr and stdout are
    both empty; in both cases it asks the gateway nothing and changes
    nothing. *)
Theorem analyzeError_nothing_to_do (env : Env) (sessionId : string) (st : Engine) :
  (sessions st !! sessionId = None ->
   analyzeError env sessionId st = (Throw (Error "Session not found"), st))
  /\ (forall s,
        sessions st !! sessionId = Some s ->
        error (context s) = "" -> output (context s) = "" ->
        analyzeError env sessionId st = (Ok None, st)).
Proof.
  unfold analyzeError, Eng.bind, Eng.get, Eng.throw, Eng.ret. split.
  - intros ->. reflexivity.
  - intros s -> He Ho.
    assert (Hd : ErrorDetector.detect (context s) = None)
      by (apply detect_absent_iff; auto).
    rewrite Hd. reflexivity.
Qed.

(** X11. When the gateway fails on the enrichment request, [analyzeError]
    throws the gateway's error and stores no diagnosis: the store is as it
    was. *)
Theorem analyzeError_gateway_failure (env : Env) (sessionId : string) (st : Engine)
    (s : DebugSession) (a0 : ErrorAnalysis) (e : exn) (h : history) :
  sessions st !! sessionId = Some s ->
  ErrorDetector.detect (context s) = Some a0 ->
  OllamaService.analyzeError env
    (ErrorDetector.errorText (context s))
    (JSON.stringify_origin (command (context s)) (workingDirectory (context s)))
    None (world st) = (Throw e, h) ->
  analyzeError env sessionId st
  = (Throw e, {| sessions := sessions st; world := h; invoked := invoked st |}).
Proof.
  intros Hs Hd Hg.
  unfold analyzeError, Eng.bind, Eng.get, Eng.throw, Eng.ret, Eng.lift.
  rewrite Hs, Hd. fold (ErrorDetector.errorText (context s)). rewrite Hg. reflexivity.
Qed.

(** X12. [generateFixes] throws [Error('No analysis available for session')]
    for an unknown identifier and for a session without a diagnosis, and then
    changes nothing. *)
Theorem generateFixes_needs_analysis (env : Env) (sessionId : string) (st : Engine) :
  (sessions st !! sessionId = None
   \/ exists s, sessions st !! sessionId = Some s /\ analysis s = None) ->
  generateFixes env sessionId st
  = (Throw (Error "No analysis available for session"), st).
Proof.
  unfold generateFixes, Eng.bind, Eng.get, Eng.throw, analysed.
  intros [-> | (s & -> & ->)]; reflexivity.
Qed.

(** X13. For a module, command or permission diagnosis [generateFixes] talks
    to no collaborator and cannot throw.  It returns one fix, of kind
    [install_package] and confidence 0.9, [command] and 0.8, or
    [permission_change] and 0.7, and stores that list on the session, whose
    other fields stay as they were. *)
Theorem generateFixes_by_rule (env : Env) (sessionId : string) (st : Engine)
    (s : DebugSession) (a : ErrorAnalysis) :
  sessions st !! sessionId = Some s ->
  analysis s = Some a ->
  type a = MODULE \/ type a = COMMAND \/ type a = PERMISSION ->
  exists f st',
    generateFixes env sessionId st = (Ok [f], st')
    /\ world st' = world st
    /\ sessions st' !! sessionId = Some (set_fixes [f] s)
    /\ (forall other, other <> sessionId -> sessions st' !! other = sessions st !! other)
    /\ (fix_type f, fix_confidence f)
       = match type a with
         | MODULE => (FixType.INSTALL_PACKAGE, 0.9%Q)
         | COMMAND => (FixType.COMMAND, 0.8%Q)
         | _ => (FixType.PERMISSION_CHANGE, 0.7%Q)
         end.
Proof.
  intros Hs Ha Ht. rewrite (generateFixes_deterministic env _ _ _ _ Hs Ha).
  destruct Ht as [Ht|[Ht|Ht]]; rewrite Ht; eexists; eexists;
    (split; [reflexivity|]); cbn [world sessions store_fixes];
    (split; [reflexivity|]);
    (split; [rewrite lookup_alter_eq, Hs; reflexivity|]);
    (split; [intros other Hne; rewrite lookup_alter_ne by congruence; reflexivity
            | reflexivity]).
Qed.

Lemma trim_start_empty s : Js.trim_start s = "" -> Js.trim s = "".
Proof. unfold Js.trim. intros ->. reflexivity. Qed.

Lemma blank_test fixCommand :
  negb (Js.truthy fixCommand) || String.eqb (Js.trim fixCommand) ""
  = String.eqb (Js.trim fixCommand) "".
Proof. destruct fixCommand; reflexivity. Qed.

Lemma createAIFix_unfold env s h :
  createAIFix env s h
  = match OllamaService.generateResponse env (fix_prompt s) None h with
    | (Ok fixCommand, h') =>
        (Ok (if String.eqb (Js.trim fixCommand) "" then None
             else Some (suggested_fix env s fixCommand)), h')
    | (Throw e, h') => (Throw e, h')
    end.
Proof.
  unfold createAIFix, World.bind. fold (fix_prompt s).
  destruct (OllamaService.generateResponse env (fix_prompt s) None h) as [[fc|e] h'];
    [|reflexivity].
  rewrite blank_test. destruct (String.eqb (Js.trim fc) ""); reflexivity.
Qed.

Lemma generateFixes_ai env sessionId st s a :
  sessions st !! sessionId = Some s ->
  analysis s = Some a ->
  asks_gateway (type a) = true ->
  generateFixes env sessionId st
  = match createAIFix env s (world st) with
    | (Ok aiFix, h) =>
        (Ok (match aiFix with Some f => [f] | None => [] end),
         {| sessions :=
              alter (set_fixes (match aiFix with Some f => [f] | None => [] end))
                sessionId (sessions st);
            world := h; invoked := invoked st |})
    | (Throw e, h) =>
        (Throw e, {| sessions := sessions st; world := h; invoked := invoked st |})
    end.
Proof.
  intros Hs Ha Ht.
  unfold generateFixes, Eng.bind, Eng.get, Eng.throw, Eng.mutate, Eng.ret, Eng.lift,
    analysed.
  rewrite Hs, Ha.
  destruct (type a); try discriminate Ht;
    destruct (createAIFix env s (world st)) as [[[f|]|e] h]; reflexivity.
Qed.

(** X14. For a syntax, type, runtime or unknown diagnosis, when the gateway
    answers the fix prompt with a blank text, [generateFixes] returns the empty
    list and stores it; every later [applyFix] on the session, whatever the
    index, throws [Error('Fix not found')] and runs nothing. *)
Theorem generateFixes_blank_answer (env : Env) (sessionId : string) (st : Engine)
    (s : DebugSession) (a : ErrorAnalysis) (fixCommand : string) (h : history) :
  sessions st !! sessionId = Some s ->
  analysis s = Some a ->
  asks_gateway (type a) = true ->
  OllamaService.generateResponse env (fix_prompt s) None (world st) = (Ok fixCommand, h) ->
  Js.trim fixCommand = "" ->
  exists st',
    generateFixes env sessionId st = (Ok [], st')
    /\ sessions st' !! sessionId = Some (set_fixes [] s)
    /\ forall fixIndex,
         applyFix sessionId fixIndex st' = (Throw (Error "Fix not found"), st').
Proof.
  intros Hs Ha Ht Hg Hblank.
  rewrite (generateFixes_ai env _ _ _ _ Hs Ha Ht), createAIFix_unfold, Hg, Hblank.
  cbn [String.eqb]. eexists. split; [reflexivity|]. cbn [sessions].
  assert (Hl : alter (set_fixes []) sessionId (sessions st) !! sessionId
               = Some (set_fixes [] s)) by (rewrite lookup_alter_eq, Hs; reflexivity).
  split; [exact Hl|]. intros fixIndex. rewrite applyFix_unfold. cbn [sessions].
  rewrite Hl. cbn [selected fixes set_fixes]. unfold at_index.
  destruct (0 <=? fixIndex)%Z; reflexivity.
Qed.

(** X15. For a syntax, type, runtime or unknown diagnosis, when the gateway
    answers the fix prompt with a text that is not blank, [generateFixes]
    returns and stores one fix of kind [command] and confidence 0.6; its
    description quotes the answer trimmed, and its deferred operation runs
    that trimmed text as one command in the session's working directory and
    ends as the command ends. *)
Theorem generateFixes_suggested (env : Env) (sessionId : string) (st : Engine)
    (s : DebugSession) (a : ErrorAnalysis) (fixCommand : string) (h : history) :
  sessions st !! sessionId = Some s ->
  analysis s = Some a ->
  asks_gateway (type a) = true ->
  OllamaService.generateResponse env (fix_prompt s) None (world st) = (Ok fixCommand, h) ->
  Js.trim fixCommand <> "" ->
  exists f st',
    generateFixes env sessionId st = (Ok [f], st')
    /\ sessions st' !! sessionId = Some (set_fixes [f] s)
    /\ fix_type f = FixType.COMMAND
    /\ fix_confidence f = 0.6%Q
    /\ description f = "Run suggested fix: " +:+ Js.trim fixCommand
    /\ forall h0,
         apply f h0
         = (env_exec env h0 (Js.trim fixCommand) (Some (workingDirectory (context s))),
            ExecAsync (Js.trim fixCommand) (Some (workingDirectory (context s)))
              (env_exec env h0 (Js.trim fixCommand) (Some (workingDirectory (context s))))
            :: h0).
Proof.
  intros Hs Ha Ht Hg Hblank.
  rewrite (generateFixes_ai env _ _ _ _ Hs Ha Ht), createAIFix_unfold, Hg.
  destruct (String.eqb_spec (Js.trim fixCommand) "") as [Heq|_]; [congruence|].
  eexists. eexists. split; [reflexivity|]. cbn [sessions].
  split; [rewrite lookup_alter_eq, Hs; reflexivity|].
  repeat split.
Qed.

(** X16. When the selected fix's deferred operation ends well, [applyFix]
    returns, having run it once, and sets the session's [applied] flag; the
    session's context, diagnosis and fixes, and every other session, are
    untouched. *)
Theorem applyFix_success (sessionId : string) (fixIndex : Z) (st : Engine)
    (s : DebugSession) (f : Fix) (h : history) :
  sessions st !! sessionId = Some s ->
  selected (Some s) fixIndex = Some f ->
  apply f (world st) = (Ok tt, h) ->
  exists st',
    applyFix sessionId fixIndex st = (Ok tt, st')
    /\ world st' = h
    /\ sessions st' !! sessionId = Some (set_applied true s)
    /\ (forall other, other <> sessionId -> sessions st' !! other = sessions st !! other)
    /\ times_run sessionId fixIndex st' = S (times_run sessionId fixIndex st).
Proof.
  intros Hs Hsel Hap. rewrite applyFix_unfold, Hs, Hsel, Hap.
  eexists. split; [reflexivity|]. cbn [world sessions]. split; [reflexivity|].
  split; [rewrite lookup_alter_eq, Hs; reflexivity|]. split.
  - intros other Hne. rewrite lookup_alter_ne by congruence. reflexivity.
  - unfold times_run. cbn [invoked List.filter]. rewrite same_fix_refl. reflexivity.
Qed.

Lemma still_lift {A} (c : W A) : still (Eng.lift c).
Proof. intros st. unfold Eng.lift. destruct (c (world st)). reflexivity. Qed.

Lemma still_ret {A} (a : A) : still (Eng.ret a).
Proof. intros st. reflexivity. Qed.

Lemma still_throw {A} (e : exn) : still (@Eng.throw A e).
Proof. intros st. reflexivity. Qed.

Lemma still_bind {A B} (c : M A) (k : A -> M B) :
  still c -> (forall a, still (k a)) -> still (Eng.bind c k).
Proof.
  intros Hc Hk st. unfold Eng.bind. specialize (Hc st).
  destruct (c st) as [[a|e] st1]; simpl in *; [|exact Hc].
  rewrite (Hk a st1). exact Hc.
Qed.

Lemma still_initialize env : still (initialize env).
Proof.
  unfold initialize. apply still_bind; [apply still_lift|]. intros available.
  destruct (negb available); [apply still_throw|].
  apply still_bind; [apply still_lift|]. intros hasDefault.
  destruct (negb hasDefault); [|apply still_ret].
  repeat (apply still_bind; [apply still_lift|]; intros ?). apply still_lift.
Qed.

(** The only writes to the store: [initialize] and [getSession] write
    nothing; [createSession] stores a new session under the identifier it
    drew; [analyzeError], [generateFixes] and [applyFix] write at most one
    field (the diagnosis, the fixes, the flag [applied] set to true) of the
    session they were called for.  No call deletes a session. *)
Lemma store_writes (env : Env) (c : Call) (st : Engine) :
  match c with
  | Initialize | GetSession _ => sessions (after env c st) = sessions st
  | CreateSession context =>
      exists now,
        sessions (after env c st)
        = <[env_randomBytes env (world st) 8 :=
              new_session (env_randomBytes env (world st) 8) now context]> (sessions st)
  | AnalyzeError sessionId =>
      sessions (after env c st) = sessions st
      \/ exists a, sessions (after env c st)
                   = alter (set_analysis a) sessionId (sessions st)
  | GenerateFixes sessionId =>
      sessions (after env c st) = sessions st
      \/ exists l, sessions (after env c st)
                   = alter (set_fixes l) sessionId (sessions st)
  | ApplyFix sessionId _ =>
      sessions (after env c st) = sessions st
      \/ sessions (after env c st) = alter (set_applied true) sessionId (sessions st)
  end.
Proof.
  destruct c as [|context|sessionId|sessionId|sessionId fixIndex|sessionId]; cbn [after].
  - apply still_initialize.
  - unfold createSession, Eng.bind, Eng.lift, Eng.set, Eng.ret, World.ask. cbn.
    eexists. reflexivity.
  - unfold analyzeError, Eng.bind, Eng.get, Eng.throw, Eng.ret, Eng.lift, Eng.mutate.
    destruct (sessions st !! sessionId) as [s|]; [|left; reflexivity].
    destruct (ErrorDetector.detect (context s)) as [a0|]; [|left; reflexivity].
    destruct (OllamaService.analyzeError env _ _ None (world st)) as [[r|e] h];
      [right; eexists; reflexivity | left; reflexivity].
  - unfold generateFixes, Eng.bind, Eng.get, Eng.throw, Eng.ret, Eng.lift, Eng.mutate.
    destruct (analysed (sessions st !! sessionId)) as [[s a]|]; [|left; reflexivity].
    destruct (type a); try (right; eexists; reflexivity);
      destruct (createAIFix env s (world st)) as [[aiFix|e] h];
      first [right; eexists; reflexivity | left; reflexivity].
  - rewrite applyFix_unfold.
    destruct (selected (sessions st !! sessionId) fixIndex) as [f|]; [|left; reflexivity].
    destruct (apply f (world st)) as [[[]|e] h]; [right|left]; reflexivity.
  - reflexivity.
Qed.

Lemma well_keyed_alter f sessionId st st' :
  (forall s, id_ (f s) = id_ s) ->
  sessions st' = alter f sessionId (sessions st) ->
  well_keyed st -> well_keyed st'.
Proof.
  intros Hf Heq Hk i s. rewrite Heq, lookup_alter.
  destruct (decide (sessionId = i)) as [->|].
  - destruct (sessions st !! i) as [s0|] eqn:Hs; cbn; [|discriminate].
    intros [= <-]. rewrite Hf. apply (Hk _ _ Hs).
  - apply Hk.
Qed.

(** X17. Every session is stored under its own identifier: this holds of the
    empty engine and is kept by every call, so it holds after any sequence of
    calls, in any world. *)
Theorem store_well_keyed (env : Env) (calls : list Call) :
  well_keyed fresh
  /\ (forall c st, well_keyed st -> well_keyed (after env c st))
  /\ well_keyed (after_all env calls fresh).
Proof.
  assert (H0 : well_keyed fresh) by (intros i s H; discriminate H).
  assert (Hstep : forall c st, well_keyed st -> well_keyed (after env c st)).
  { intros c st Hk. pose proof (store_writes env c st) as Hw.
    destruct c as [|context|sessionId|sessionId|sessionId fixIndex|sessionId].
    - intros i s. rewrite Hw. apply Hk.
    - destruct Hw as [now Hw]. intros i s. rewrite Hw, lookup_insert.
      destruct (decide (env_randomBytes env (world st) 8 = i)) as [->|].
      + intros [= <-]. reflexivity.
      + apply Hk.
    - destruct Hw as [Hw|[a Hw]]; [intros i s; rewrite Hw; apply Hk|].
      eapply well_keyed_alter; [|exact Hw|exact Hk]. intros s0. reflexivity.
    - destruct Hw as [Hw|[l Hw]]; [intros i s; rewrite Hw; apply Hk|].
      eapply well_keyed_alter; [|exact Hw|exact Hk]. intros s0. reflexivity.
    - destruct Hw as [Hw|Hw]; [intros i s; rewrite Hw; apply Hk|].
      eapply well_keyed_alter; [|exact Hw|exact Hk]. intros s0. reflexivity.
    - intros i s. rewrite Hw. apply Hk. }
  split; [exact H0|]. split; [exact Hstep|].
  unfold after_all. generalize fresh H0. induction calls as [|c calls IH];
    intros st Hk; cbn [fold_left]; [exact Hk|].
  apply IH, Hstep, Hk.
Qed.

Lemma kept_refl s : kept s s.
Proof. unfold kept. auto 10. Qed.

Lemma kept_alter (f : DebugSession -> DebugSession) (sessionId : string)
    (m : gmap string DebugSession) (i : string) (s : DebugSession) :
  (forall s0, kept s0 (f s0)) ->
  m !! i = Some s ->
  exists s', alter f sessionId m !! i = Some s' /\ kept s s'.
Proof.
  intros Hf Hs. rewrite lookup_alter. destruct (decide (sessionId = i)) as [->|].
  - rewrite Hs. cbn. eauto.
  - exists s. split; [exact Hs | apply kept_refl].
Qed.

(** X18. A stored session stays: whatever call is made next (a
    [createSession] that draws the same identifier again apart), the session
    is still stored afterwards with the same identifier, context and start
    time; its [applied] flag, once true, is still true; and its diagnosis and
    its fixes, once present, are still present. *)
Theorem session_kept (env : Env) (c : Call) (st : Engine) (sessionId : string)
    (s : DebugSession) :
  sessions st !! sessionId = Some s ->
  (forall context, c = CreateSession context ->
                   env_randomBytes env (world st) 8 <> sessionId) ->
  exists s', sessions (after env c st) !! sessionId = Some s' /\ kept s s'.
Proof.
  intros Hs Hnew. pose proof (store_writes env c st) as Hw.
  assert (Hsame : forall st', sessions st' = sessions st ->
            exists s', sessions st' !! sessionId = Some s' /\ kept s s').
  { intros st' ->. exists s. split; [exact Hs | apply kept_refl]. }
  destruct c as [|context|sid|sid|sid fixIndex|sid].
  - apply Hsame, Hw.
  - destruct Hw as [now Hw]. rewrite Hw.
    rewrite lookup_insert_ne by (apply (Hnew context eq_refl)).
    exists s. split; [exact Hs | apply kept_refl].
  - destruct Hw as [Hw|[a Hw]]; [apply Hsame, Hw|]. rewrite Hw.
    apply kept_alter; [|exact Hs]. intros s0. unfold kept. cbn. eauto 10.
  - destruct Hw as [Hw|[l Hw]]; [apply Hsame, Hw|]. rewrite Hw.
    apply kept_alter; [|exact Hs]. intros s0. unfold kept. cbn. eauto 10.
  - destruct Hw as [Hw|Hw]; [apply Hsame, Hw|]. rewrite Hw.
    apply kept_alter; [|exact Hs]. intros s0. unfold kept. cbn. eauto 10.
  - apply Hsame, Hw.
Qed.

End Store.

(** ** The fixes *)

Section Fixes.
Import DebugEngine.
Local Arguments String.append : simpl nomatch.

Lemma probe_total env l : forall h,
  exists pm evs,
    probe env l h = (Ok pm, (evs ++ h)%list)
    /\ (pm = "npm" \/ In pm (map fst l))
    /\ forallb is_access evs = true
    /\ (length evs <= length l)%nat
    /\ (l <> [] -> evs <> []).
Proof.
  induction l as [|[cmd file] l IH]; intros h; cbn [probe].
  - exists "npm", []. cbn. split; [reflexivity|]. split; [auto|]. split; [reflexivity|].
    split; [lia | congruence].
  - unfold World.try_catch, World.bind, fs_access, World.request, World.ret.
    destruct (env_access env h file) as [[]|e] eqn:Ha.
    + exists cmd, [FsAccess file (Ok tt)]. cbn. split; [reflexivity|].
      split; [auto|]. split; [reflexivity|]. split; [lia | discriminate].
    + destruct (IH (FsAccess file (Throw e) :: h)) as (pm & evs & Hp & Hin & Hacc & Hlen & _).
      exists pm, (evs ++ [FsAccess file (Throw e)])%list. rewrite Hp.
      rewrite <- app_assoc. split; [reflexivity|]. split; [|split; [|split]].
      * destruct Hin; [left|right; right]; assumption.
      * rewrite forallb_app, Hacc. reflexivity.
      * rewrite length_app. cbn. lia.
      * intros _. destruct evs; discriminate.
Qed.

Lemma probe_cons env cmd file l h :
  probe env ((cmd, file) :: l) h
  = match env_access env h file with
    | Ok u => (Ok cmd, FsAccess file (Ok u) :: h)
    | Throw e => probe env l (FsAccess file (Throw e) :: h)
    end.
Proof.
  cbn [probe].
  unfold World.try_catch, World.bind, fs_access, World.request, World.ret.
  destruct (env_access env h file); reflexivity.
Qed.

Lemma detectPackageManager_total_aux env h :
  exists pm evs,
    detectPackageManager env h = (Ok pm, (evs ++ h)%list)
    /\ In pm manager_names
    /\ forallb is_access evs = true.
Proof.
  destruct (probe_total env managers h) as (pm & evs & Hp & Hin & Hacc & _).
  exists pm, evs. split; [exact Hp|]. split; [|exact Hacc].
  destruct Hin as [->|Hin]; cbn in *; tauto.
Qed.

(** X19. [detectPackageManager] never throws and does nothing but probe for
    lock files, at least one and at most four.  It returns one of [bun],
    [pnpm], [yarn], [npm]; it returns [bun] exactly when [bun.lockb] is there,
    whatever other lock files are; and [npm] when none is. *)
Theorem detectPackageManager_result (env : Env) (h : history) :
  exists pm evs,
    detectPackageManager env h = (Ok pm, (evs ++ h)%list)
    /\ In pm manager_names
    /\ forallb is_access evs = true
    /\ (1 <= length evs <= 4)%nat
    /\ (pm = "bun" <-> env_access env h "bun.lockb" = Ok tt)
    /\ ((forall h' path, env_access env h' path <> Ok tt) -> pm = "npm").
Proof.
  destruct (probe_total env managers h) as (pm & evs & Hp & Hin & Hacc & Hlen & Hne).
  exists pm, evs. split; [exact Hp|]. split; [|split; [exact Hacc|split; [|split]]].
  - destruct Hin as [->|Hin]; cbn in *; tauto.
  - cbn in Hlen. specialize (Hne ltac:(discriminate)).
    destruct evs; [congruence|]. cbn [length] in *. lia.
  - unfold detectPackageManager, managers in Hp. rewrite probe_cons in Hp.
    destruct (env_access env h "bun.lockb") as [[]|e] eqn:Ha.
    + injection Hp as Hpm _. subst pm. tauto.
    + split; [|discriminate]. intros ->.
      destruct (probe_total env
                  [("pnpm", "pnpm-lock.yaml"); ("yarn", "yarn.lock");
                   ("npm", "package-lock.json")]
                  (FsAccess "bun.lockb" (Throw e) :: h))
        as (pm' & evs' & Hp' & Hin' & _).
      rewrite Hp' in Hp. injection Hp as Hpm _. subst pm'.
      cbn in Hin'. exfalso. intuition discriminate.
  - intros Hnone. unfold detectPackageManager, managers in Hp.
    repeat (rewrite probe_cons in Hp;
            match type of Hp with
            | context [env_access env ?h0 ?f] =>
                let Ha := fresh "Ha" in
                destruct (env_access env h0 f) as [[]|?] eqn:Ha;
                [exfalso; apply (Hnone h0 f Ha)|]
            end).
    cbn [probe] in Hp. injection Hp as Hpm _. subst pm. reflexivity.
Qed.

(** X20. The deferred operation of the install fix probes for the package
    manager and then runs one command, [<manager> add <module>], for the
    module its description names; it ends as that command ends, so it fails
    only if the command fails. *)
Theorem install_fix_runs (env : Env) (a : ErrorAnalysis) (h : history) :
  exists pm evs moduleName,
    description (createModuleInstallFix env a) = "Install missing module: " +:+ moduleName
    /\ In pm manager_names
    /\ forallb is_access evs = true
    /\ apply (createModuleInstallFix env a) h
       = (env_exec env (evs ++ h)%list (pm +:+ " add " +:+ moduleName) None,
          ExecAsync (pm +:+ " add " +:+ moduleName) None
            (env_exec env (evs ++ h)%list (pm +:+ " add " +:+ moduleName) None)
          :: (evs ++ h)%list).
Proof.
  destruct (detectPackageManager_total_aux env h) as (pm & evs & Hp & Hin & Hacc).
  exists pm, evs. eexists. split; [reflexivity|]. split; [exact Hin|].
  split; [exact Hacc|].
  cbn [apply createModuleInstallFix]. unfold World.bind. rewrite Hp. reflexivity.
Qed.

Lemma all_in_dot_one_line X : Text.all_in Dot X = one_line X.
Proof.
  unfold one_line. induction X as [|a X IH]; [reflexivity|].
  cbn [Text.all_in list_ascii_of_string forallb]. rewrite IH. reflexivity.
Qed.

Lemma commandRe_direct X :
  X <> "" -> one_line X = true ->
  exec commandRe ("command not found: " +:+ X)
  = Some {| whole := "command not found: " +:+ X; caps := [(1%nat, X)] |}.
Proof.
  intros Hne Hl. apply exec_here. destruct X as [|c X]; [congruence|].
  unfold one_line in Hl. cbn [list_ascii_of_string forallb] in Hl.
  apply andb_true_iff in Hl as [Hc Hl].
  unfold match_here, commandRe, cat, any1. cbn [mt].
  cbn [String.append Js.strip_prefix Ascii.eqb Bool.eqb plus_run]. rewrite Hc.
  erewrite star_run_all; [reflexivity | exact Hl | reflexivity].
Qed.

(** X21. The command fix is advisory: it has kind [command] and confidence
    0.8, and its deferred operation prints one line on the console, runs no
    process, reads no file and cannot fail.  For a message of the phrasing
    [command not found: X] the description and the printed line name [X]. *)
Theorem command_fix_advisory (a : ErrorAnalysis) :
  fix_type (createCommandFix a) = FixType.COMMAND
  /\ fix_confidence (createCommandFix a) = 0.8%Q
  /\ (exists line, forall h,
        apply (createCommandFix a) h = (Ok tt, ConsoleLog line :: h))
  /\ (forall X, X <> "" -> one_line X = true ->
        message a = "command not found: " +:+ X ->
        description (createCommandFix a) = "Install or add " +:+ X +:+ " to PATH"
        /\ forall h,
             apply (createCommandFix a) h
             = (Ok tt,
                ConsoleLog ("Please install " +:+ X +:+ " or ensure it's in your PATH")
                :: h)).
Proof.
  split; [reflexivity|]. split; [reflexivity|]. split.
  - eexists. intros h. reflexivity.
  - intros X Hne Hl Hm. unfold createCommandFix. cbn [description apply].
    rewrite Hm, (commandRe_direct X Hne Hl). cbn [group_of mbind option_bind group caps
      capture Nat.eqb or_else].
    assert (HX : Js.or X "unknown" = X) by (destruct X; [congruence | reflexivity]).
    rewrite HX. split; [reflexivity|]. intros h. reflexivity.
Qed.

Lemma command_fix_advisory_witness :
  description (createCommandFix
                 {| type := COMMAND; message := "command not found: gitx";
                    file := None; line := None; suggestion := None; confidence := 0.8 |})
  = "Install or add gitx to PATH".
Proof.
  apply (proj2 (proj2 (proj2 (command_fix_advisory _))) "gitx");
    [discriminate | reflexivity | reflexivity].
Defined.

End Fixes.

(** ** The inference gateway *)

Section Gateway.
Local Open Scope world_scope.

Lemma listModels_unfold env h :
  OllamaService.listModels env h = (Ok (models_of env h), listed env h).
Proof.
  unfold OllamaService.listModels, World.try_catch, World.request, World.bind,
    World.tell, World.ret, models_of, listed.
  destruct (env_list env h); reflexivity.
Qed.

Lemma hasModel_unfold env modelName h :
  OllamaService.hasModel env modelName h
  = (Ok (existsb (String.eqb modelName) (models_of env h)), listed env h).
Proof.
  unfold OllamaService.hasModel, World.bind, World.ret. rewrite listModels_unfold.
  reflexivity.
Qed.

(** X22. The three queries of the gateway never throw, whatever the Ollama
    client does.  [isAvailable] is true exactly when the model list could be
    fetched.  When it could not, [listModels] logs the error and returns the
    empty list, so [hasModel] answers false for every model. *)
Theorem gateway_queries_total (env : Env) (h : history) (modelName : string) :
  (exists b, OllamaService.isAvailable env h = (Ok b, OllamaList (env_list env h) :: h)
             /\ (b = true <-> exists l, env_list env h = Ok l))
  /\ OllamaService.listModels env h = (Ok (models_of env h), listed env h)
  /\ OllamaService.hasModel env modelName h
     = (Ok (existsb (String.eqb modelName) (models_of env h)), listed env h)
  /\ (forall e, env_list env h = Throw e ->
        models_of env h = []
        /\ listed env h = ConsoleError "Failed to list models:" e
                          :: OllamaList (Throw e) :: h
        /\ OllamaService.hasModel env modelName h = (Ok false, listed env h)).
Proof.
  split; [|split; [apply listModels_unfold|split; [apply hasModel_unfold|]]].
  - unfold OllamaService.isAvailable, World.try_catch, World.request, World.bind,
      World.ret.
    destruct (env_list env h) as [l|e]; eexists; (split; [reflexivity|]).
    + split; eauto.
    + split; [discriminate | intros [l Hl]; discriminate Hl].
  - intros e He. rewrite hasModel_unfold. unfold models_of, listed. rewrite He.
    auto.
Qed.

(** X23. [generateResponse] asks for the model list first.  When the model
    (the one configured, [llama3.2:latest] by default) is not in it, or the
    list could not be fetched, it throws [Error('Model ... not found. Please
    pull it first.')] without sending anything to the model.  Otherwise it
    sends one request, with temperature 0.7 and 2048 tokens unless configured,
    and returns the text or throws the error the client answers with. *)
Theorem generateResponse_result (env : Env) (prompt : string)
    (config : option ModelConfig) (h : history) :
  let modelName := OllamaService.or_default (config ≫= name) OllamaService.defaultModel in
  (existsb (String.eqb modelName) (models_of env h) = false ->
   OllamaService.generateResponse env prompt config h
   = (Throw (Error ("Model " +:+ modelName +:+ " not found. Please pull it first.")),
      listed env h))
  /\ (existsb (String.eqb modelName) (models_of env h) = true ->
      OllamaService.generateResponse env prompt config h
      = (env_generate env (listed env h) (request_of prompt config),
         OllamaGenerate (request_of prompt config)
           (env_generate env (listed env h) (request_of prompt config))
         :: listed env h))
  /\ (config = None ->
      request_of prompt config
      = {| model := "llama3.2:latest"; prompt := prompt; system := None;
           temperature := 0.7; num_predict := 2048 |}).
Proof.
  cbv zeta. unfold OllamaService.generateResponse, World.bind.
  rewrite hasModel_unfold. split; [|split].
  - intros ->. reflexivity.
  - intros ->. reflexivity.
  - intros ->. reflexivity.
Qed.

Lemma generateResponse_result_witness :
  OllamaService.generateResponse mistral_only "why?" None []
  = (Throw (Error "Model llama3.2:latest not found. Please pull it first."),
     [OllamaList (Ok ["mistral:latest"])]).
Proof.
  exact (proj1 (generateResponse_result mistral_only "why?" None []) eq_refl).
Defined.

Lemma for_each_progress (line : Z -> Z -> string) parts : forall h,
  OllamaService.for_each parts
    (fun part =>
       if negb (Z.eqb (snd part) 0) && negb (Z.eqb (fst part) 0)
       then World.tell (StdoutWrite (line (fst part) (snd part)))
       else World.ret tt) h
  = (Ok tt, (rev (progress_lines line parts) ++ h)%list).
Proof.
  induction parts as [|part parts IH]; intros h; [reflexivity|].
  cbn [OllamaService.for_each]. unfold World.bind, progress_lines.
  cbn [List.filter]. unfold reported at 1.
  destruct (negb (Z.eqb (snd part) 0) && negb (Z.eqb (fst part) 0)).
  - unfold World.tell at 1. rewrite IH. cbn [map rev]. rewrite <- app_assoc. reflexivity.
  - unfold World.ret at 1. rewrite IH. reflexivity.
Qed.

Lemma pullModel_unfold env modelName (line : Z -> Z -> string) h :
  OllamaService.pullModel env modelName
    (Some (fun completed total => World.tell (StdoutWrite (line completed total)))) h
  = match env_pull env h modelName with
    | Ok (parts, err) =>
        (stream_end err,
         (rev (progress_lines line parts)
          ++ OllamaPull modelName (Ok (parts, err)) :: h)%list)
    | Throw e => (Throw e, OllamaPull modelName (Throw e) :: h)
    end.
Proof.
  unfold OllamaService.pullModel, World.bind, World.request.
  destruct (env_pull env h modelName) as [[parts err]|e]; [|reflexivity].
  cbn [fst snd]. rewrite (for_each_progress line parts).
  destruct err; reflexivity.
Qed.

(** X24. [pullModel] asks for the download once.  It reports progress for
    exactly the parts whose total and completed counts are both not zero (so
    it never divides by a zero total), in the order they arrive, and for
    nothing when no callback is given; when the request or the stream fails it
    throws that error, after the reports of the parts that came before. *)
Theorem pullModel_progress (env : Env) (modelName : string) (line : Z -> Z -> string)
    (h : history) :
  OllamaService.pullModel env modelName
    (Some (fun completed total => World.tell (StdoutWrite (line completed total)))) h
  = match env_pull env h modelName with
    | Ok (parts, err) =>
        (stream_end err,
         (rev (progress_lines line parts)
          ++ OllamaPull modelName (Ok (parts, err)) :: h)%list)
    | Throw e => (Throw e, OllamaPull modelName (Throw e) :: h)
    end
  /\ OllamaService.pullModel env modelName None h
     = (match env_pull env h modelName with
        | Ok (_, err) => stream_end err
        | Throw e => Throw e
        end,
        OllamaPull modelName (env_pull env h modelName) :: h)
  /\ (forall parts,
        Forall (fun part => snd part <> 0 /\ fst part <> 0)
          (List.filter reported parts)
        /\ (length (progress_lines line parts) <= length parts)%nat).
Proof.
  split; [apply pullModel_unfold|]. split.
  - unfold OllamaService.pullModel, World.bind, World.request.
    destruct (env_pull env h modelName) as [[parts err]|e]; [|reflexivity].
    cbn [fst snd].
    assert (Hloop : forall h0,
      OllamaService.for_each parts (fun _ : Z * Z => World.ret tt) h0 = (Ok tt, h0)).
    { induction parts as [|part parts IH]; intros h0; [reflexivity|].
      cbn [OllamaService.for_each]. unfold World.bind, World.ret at 1. apply IH. }
    rewrite Hloop. destruct err; reflexivity.
  - intros parts. split.
    + apply List.Forall_forall. intros part Hin. apply filter_In in Hin as [_ Hr].
      unfold reported in Hr. apply andb_true_iff in Hr as [H1 H2].
      apply negb_true_iff in H1, H2. split; apply Z.eqb_neq; assumption.
    + unfold progress_lines. rewrite length_map. apply filter_length_le.
Qed.

End Gateway.

(** ** The streamed answer *)

Section Streamed.
Import Streaming.
Local Open Scope world_scope.
Local Arguments String.append : simpl nomatch.

Lemma glued_chunks parts : glued (chunks_of parts) = glued parts.
Proof.
  induction parts as [|part parts IH]; [reflexivity|].
  unfold chunks_of in *. cbn [List.filter].
  destruct part as [|c part]; cbn [Js.truthy glued fold_right String.append].
  - exact IH.
  - unfold glued in IH. rewrite IH. reflexivity.
Qed.

Lemma consume_written parts : forall fullResponse h,
  consume parts (Some (fun chunk => World.tell (StdoutWrite chunk))) fullResponse h
  = (Ok (fullResponse +:+ glued parts),
     (rev (map StdoutWrite (chunks_of parts)) ++ h)%list).
Proof.
  induction parts as [|part parts IH]; intros fullResponse h.
  - cbn [consume glued fold_right chunks_of List.filter map rev app].
    rewrite append_empty_r. reflexivity.
  - cbn [consume]. unfold chunks_of. cbn [List.filter].
    destruct (Js.truthy part) eqn:Hp.
    + unfold World.bind, World.tell at 1. rewrite IH.
      cbn [map rev glued fold_right]. rewrite append_assoc, <- app_assoc. reflexivity.
    + rewrite IH. destruct part; [|discriminate Hp].
      cbn [glued fold_right String.append]. reflexivity.
Qed.

Lemma consume_silent parts : forall fullResponse h,
  consume parts None fullResponse h = (Ok (fullResponse +:+ glued parts), h).
Proof.
  induction parts as [|part parts IH]; intros fullResponse h.
  - cbn [consume glued fold_right]. rewrite append_empty_r. reflexivity.
  - cbn [consume]. destruct (Js.truthy part) eqn:Hp.
    + unfold World.bind, World.ret at 1. rewrite IH.
      cbn [glued fold_right]. rewrite append_assoc. reflexivity.
    + rewrite IH. destruct part; [|discriminate Hp].
      cbn [glued fold_right String.append]. reflexivity.
Qed.

(** X29. [streamResponse] asks for the model list first and, when the model
    is not in it, throws [Error('Model ... not found. Please pull it first.')]
    without opening a stream.  Otherwise it opens one stream and throws what
    the client rejects with.  It hands [onChunk] the parts that have a text,
    in the order of the stream and none of them empty, and returns the texts
    of all parts put end to end, which is also what the chunks handed over
    add up to; when the stream ends with an error it throws that error after
    the chunks that came before. *)
Theorem streamResponse_chunks (env : Env)
    (generate_stream : GenerateRequest -> W (list string * option exn))
    (prompt : string) (config : option ModelConfig) (h : history) :
  let modelName := OllamaService.or_default (config ≫= name) OllamaService.defaultModel in
  let written := Some (fun chunk => World.tell (StdoutWrite chunk)) in
  (existsb (String.eqb modelName) (models_of env h) = false ->
   forall onChunk,
     streamResponse env generate_stream prompt config onChunk h
     = (Throw (Error ("Model " +:+ modelName +:+ " not found. Please pull it first.")),
        listed env h))
  /\ (existsb (String.eqb modelName) (models_of env h) = true ->
      (forall e h1,
         generate_stream (request_of prompt config) (listed env h) = (Throw e, h1) ->
         forall onChunk,
           streamResponse env generate_stream prompt config onChunk h = (Throw e, h1))
      /\ (forall parts err h1,
            generate_stream (request_of prompt config) (listed env h)
            = (Ok (parts, err), h1) ->
            streamResponse env generate_stream prompt config written h
            = (answer_end parts err,
               (rev (map StdoutWrite (chunks_of parts)) ++ h1)%list)
            /\ streamResponse env generate_stream prompt config None h
               = (answer_end parts err, h1)
            /\ glued (chunks_of parts) = glued parts
            /\ Forall (fun chunk => chunk <> "") (chunks_of parts))).
Proof.
  intros modelName written. split.
  - intros Hno onChunk. unfold streamResponse, World.bind. fold modelName.
    rewrite hasModel_unfold, Hno. reflexivity.
  - intros Hyes. split.
    + intros e h1 Hs onChunk. unfold streamResponse, World.bind. fold modelName.
      rewrite hasModel_unfold, Hyes. cbn [negb].
      unfold request_of in Hs. fold modelName in Hs. rewrite Hs. reflexivity.
    + intros parts err h1 Hs. unfold request_of in Hs. fold modelName in Hs.
      split; [|split; [|split]].
      * unfold streamResponse, World.bind. fold modelName.
        rewrite hasModel_unfold, Hyes. cbn [negb]. rewrite Hs. cbn [fst snd].
        unfold written. rewrite consume_written. cbn [String.append].
        destruct err; reflexivity.
      * unfold streamResponse, World.bind. fold modelName.
        rewrite hasModel_unfold, Hyes. cbn [negb]. rewrite Hs. cbn [fst snd].
        rewrite consume_silent. cbn [String.append]. destruct err; reflexivity.
      * apply glued_chunks.
      * apply List.Forall_forall. intros chunk Hin. unfold chunks_of in Hin.
        apply filter_In in Hin as [_ Ht]. intros ->. discriminate Ht.
Qed.

Lemma streamResponse_chunks_witness :
  streamResponse calm chatty "why?" None
    (Some (fun chunk => World.tell (StdoutWrite chunk))) []
  = (Ok "Hello",
     [StdoutWrite "lo"; StdoutWrite "Hel";
      OllamaGenerate (request_of "why?" None) (Ok "Hello");
      OllamaList (Ok ["llama3.2:latest"])]).
Proof.
  exact (proj1 (proj2 (proj2 (streamResponse_chunks calm chatty "why?" None []) eq_refl)
                 ["Hel"; ""; "lo"] None _ eq_refl)).
Defined.

(** X30. The gateway's [analyzeError] asks for the model list and then, when
    the model is installed, sends exactly one request and answers as the
    client does; otherwise it throws [Error('Model ... not found. Please pull
    it first.')].  The model of the request is never the empty text: it is the
    configured name, or [llama3.2:latest] when none or an empty one is
    configured.  The request always carries a system prompt that is not
    empty.  Its prompt holds the error text and then the context, verbatim.
    A configured temperature or token limit is sent as it is, zero included;
    0.7 and 2048 are sent when none is configured. *)
Theorem gateway_analysis_request (env : Env) (error context : string)
    (modelConfig : option ModelConfig) (h : history) :
  exists req,
    OllamaService.analyzeError env error context modelConfig h
    = (if existsb (String.eqb (model req)) (models_of env h)
       then (env_generate env (listed env h) req,
             OllamaGenerate req (env_generate env (listed env h) req) :: listed env h)
       else (Throw (Error ("Model " +:+ model req +:+ " not found. Please pull it first.")),
             listed env h))
    /\ model req <> ""
    /\ (modelConfig ≫= name = Some (model req)
        \/ (model req = "llama3.2:latest"
            /\ (modelConfig ≫= name = None \/ modelConfig ≫= name = Some "")))
    /\ (exists text,
          system req = Some text /\ text <> ""
          /\ (modelConfig ≫= systemPrompt = Some text
              \/ (text = "You are a helpful debugging assistant that provides clear, actionable solutions to programming errors."
                  /\ (modelConfig ≫= systemPrompt = None
                      \/ modelConfig ≫= systemPrompt = Some ""))))
    /\ (exists before between behind,
          prompt req = before +:+ error +:+ between +:+ context +:+ behind
          /\ before = nl +:+ "You are a debugging assistant. Analyze the following error and provide a concise explanation and solution."
                      +:+ nl +:+ nl +:+ "Error:" +:+ nl
          /\ between = nl +:+ nl +:+ "Context:" +:+ nl)
    /\ temperature req = default 0.7%Q (modelConfig ≫= cfg_temperature)
    /\ num_predict req = default 2048 (modelConfig ≫= maxTokens).
Proof.
  unfold OllamaService.analyzeError, OllamaService.generateResponse.
  match goal with |- context [OllamaGenerate ?r] => exists r end. split.
  - unfold World.bind. rewrite hasModel_unfold.
    cbn [mbind option_bind name systemPrompt cfg_temperature maxTokens model].
    match goal with |- context [negb ?b] => destruct b end; reflexivity.
  - cbn [model system prompt temperature num_predict mbind option_bind name systemPrompt
         cfg_temperature maxTokens].
    split; [|split; [|split; [|split; [|split; reflexivity]]]].
    + destruct (modelConfig ≫= name) as [[|c n]|]; discriminate.
    + destruct (modelConfig ≫= name) as [[|c n]|]; cbn; auto.
    + destruct (modelConfig ≫= systemPrompt) as [[|c t]|]; cbn; eexists;
        (split; [reflexivity|]); (split; [discriminate|]); auto.
    + do 3 eexists. split; [|split; reflexivity].
      rewrite !append_assoc. reflexivity.
Qed.

End Streamed.

(** ** The initialization gate *)

Section Gate.
Import DebugEngine.

Lemma initialize_unfold env st :
  initialize env st
  = match env_list env (world st) with
    | Throw e => (Throw unavailable, with_world st (OllamaList (Throw e) :: world st))
    | Ok l =>
        if existsb (String.eqb "llama3.2:latest")
             (models_of env (OllamaList (Ok l) :: world st))
        then (Ok tt, with_world st (listed env (OllamaList (Ok l) :: world st)))
        else
          match OllamaService.pullModel env "llama3.2:latest"
                  (Some (fun completed total =>
                           World.tell (StdoutWrite (progress_line env completed total))))
                  (pulling :: listed env (OllamaList (Ok l) :: world st)) with
          | (Ok _, h3) => (Ok tt, with_world st (downloaded :: h3))
          | (Throw e, h3) => (Throw e, with_world st h3)
          end
    end.
Proof.
  unfold initialize, Eng.bind, Eng.lift, Eng.throw, Eng.ret,
    OllamaService.isAvailable, World.try_catch, World.bind, World.request, World.ret.
  destruct (env_list env (world st)) as [l|e]; cbn [negb world sessions invoked];
    [|reflexivity].
  rewrite hasModel_unfold.
  destruct (existsb (String.eqb "llama3.2:latest")
              (models_of env (OllamaList (Ok l) :: world st)));
    cbn [negb world sessions invoked]; [reflexivity|].
  set (P := OllamaService.pullModel env "llama3.2:latest"
              (Some (fun completed total =>
                       World.tell (StdoutWrite (progress_line env completed total))))
              (pulling :: listed env (OllamaList (Ok l) :: world st))).
  unfold World.tell. cbn [world sessions invoked].
  repeat match goal with
         | |- context [OllamaService.pullModel ?a ?b ?c ?d] =>
             change (OllamaService.pullModel a b c d) with P
         end.
  destruct P as [[[]|e] h3]; reflexivity.
Qed.

(** X25. [initialize] throws [Error('Ollama is not available. ...')] when the
    model list cannot be fetched, and asks for nothing more.  When
    [llama3.2:latest] is installed it returns without a download and without
    output.  When it is not, it announces the download and pulls that model
    once; it returns when the download ends well and throws the download's
    error otherwise.  In every case the sessions and the record of fixes run
    are untouched. *)
Theorem initialize_gate (env : Env) (st : Engine) :
  (forall e, env_list env (world st) = Throw e ->
     initialize env st
     = (Throw unavailable, with_world st (OllamaList (Throw e) :: world st)))
  /\ (forall l, env_list env (world st) = Ok l ->
        let h1 := OllamaList (Ok l) :: world st in
        let h2 := pulling :: listed env h1 in
        if existsb (String.eqb "llama3.2:latest") (models_of env h1)
        then initialize env st = (Ok tt, with_world st (listed env h1))
        else
          exists later,
            initialize env st
            = (match env_pull env h2 "llama3.2:latest" with
               | Ok (_, err) => stream_end err
               | Throw e => Throw e
               end,
               with_world st
                 (later ++ OllamaPull "llama3.2:latest"
                             (env_pull env h2 "llama3.2:latest") :: h2)%list))
  /\ sessions (snd (initialize env st)) = sessions st
  /\ invoked (snd (initialize env st)) = invoked st.
Proof.
  split; [|split; [|split; [apply still_initialize | apply quiet_initialize]]].
  - intros e He. rewrite initialize_unfold, He. reflexivity.
  - intros l Hl. cbv zeta. rewrite initialize_unfold, Hl.
    destruct (existsb (String.eqb "llama3.2:latest")
                (models_of env (OllamaList (Ok l) :: world st))); [reflexivity|].
    rewrite pullModel_unfold.
    destruct (env_pull env (pulling :: listed env (OllamaList (Ok l) :: world st))
                "llama3.2:latest") as [[parts [e|]]|e]; cbn [stream_end].
    + eexists. reflexivity.
    + eexists (_ :: _)%list. reflexivity.
    + exists []. reflexivity.
Qed.

(** X26. When [llama3.2:latest] is not among the installed models (or the
    list cannot be fetched), [analyzeError] on a session with something to
    diagnose throws [Error('Model llama3.2:latest not found. Please pull it
    first.')], sends nothing to a model and stores no diagnosis. *)
Theorem analyzeError_model_missing (env : Env) (sessionId : string) (st : Engine)
    (s : DebugSession) :
  sessions st !! sessionId = Some s ->
  ErrorDetector.detect (context s) <> None ->
  existsb (String.eqb "llama3.2:latest") (models_of env (world st)) = false ->
  analyzeError env sessionId st
  = (Throw (Error "Model llama3.2:latest not found. Please pull it first."),
     with_world st (listed env (world st))).
Proof.
  intros Hs Hd Hm.
  unfold analyzeError, Eng.bind, Eng.get, Eng.throw, Eng.ret, Eng.lift.
  rewrite Hs. destruct (ErrorDetector.detect (context s)) as [a0|]; [|congruence].
  unfold OllamaService.analyzeError, OllamaService.generateResponse, World.bind.
  rewrite hasModel_unfold.
  change (OllamaService.or_default _ OllamaService.defaultModel)
    with "llama3.2:latest".
  rewrite Hm. reflexivity.
Qed.

End Gate.

(** ** Command diagnoses and their fix *)

Section CommandDiagnosis.
Import ErrorDetector DebugEngine.
Local Arguments String.append : simpl nomatch.

Lemma star_run_total c s (k : cont) :
  (forall m rest, k m rest <> None) -> star_run c s k <> None.
Proof.
  revert k. induction s as [|a s IH]; intros k Hk; cbn [star_run]; [apply Hk|].
  destruct (cset_mem c a); [|apply Hk].
  destruct (star_run c s (fun m rest => k (String a m) rest)) eqn:Hs; [discriminate|].
  exfalso. apply (IH (fun m rest => k (String a m) rest)); [|exact Hs].
  intros m rest. apply Hk.
Qed.

Lemma exec_found r pre s : match_here r s <> None -> exec r (pre +:+ s) <> None.
Proof.
  intros Hs. induction pre as [|a pre IH].
  - cbn [String.append]. destruct s; cbn [exec];
      destruct (match_here r _); congruence.
  - cbn [String.append exec].
    destruct (match_here r (String a (pre +:+ s))); [discriminate | exact IH].
Qed.

(** The direct pattern matches every text that holds its literal followed by
    a character that is no line terminator. *)
Lemma direct_pattern_complete pre c rest :
  cset_mem Dot c = true ->
  exec direct_pattern (pre +:+ "command not found: " +:+ String c rest) <> None.
Proof.
  intros Hc. apply exec_found.
  unfold match_here, direct_pattern, cat, any1. cbn [mt].
  rewrite strip_prefix_self. cbn [plus_run]. rewrite Hc.
  apply star_run_total. discriminate.
Qed.

Lemma direct_pattern_in_part part text :
  Text.substring_of part text ->
  exec direct_pattern part <> None -> exec direct_pattern text <> None.
Proof.
  intros (before & behind & ->) Hp.
  destruct (exec direct_pattern part) as [m|] eqn:Hm; [|congruence].
  destruct (exec_sound _ _ _ Hm) as [(b & e & ->) Hmatched].
  unfold direct_pattern in Hmatched. cbn [cat any1 matched] in Hmatched.
  destruct Hmatched as (m1 & X & a1 & a2 & -> & (-> & _) & (a3 & (Hne & Hall & _) & _) & _).
  destruct X as [|c X]; [congruence|].
  cbn [Text.all_in] in Hall. apply andb_true_iff in Hall as [Hc _].
  replace (before +:+ (b +:+ ("command not found: " +:+ String c X) +:+ e) +:+ behind)
    with ((before +:+ b) +:+ "command not found: " +:+ String c (X +:+ e +:+ behind)).
  - apply direct_pattern_complete, Hc.
  - rewrite !append_assoc. reflexivity.
Qed.

(** X27. A command diagnosis never comes from the zsh pattern: whenever that
    pattern matches, the direct pattern, scanned before it, matches too.  So
    the message of a command diagnosis is either [command not found: X], and
    the fix then names [X], or [bash: X: command not found], and the fix then
    names the command [unknown]. *)
Theorem command_diagnosis_fix (context : DebugContext) (a : ErrorAnalysis) :
  detect context = Some a ->
  type a = COMMAND ->
  (exists X,
     message a = "command not found: " +:+ X
     /\ X <> "" /\ one_line X = true
     /\ description (createCommandFix a) = "Install or add " +:+ X +:+ " to PATH")
  \/ (exists X,
        message a = "bash: " +:+ X +:+ ": command not found"
        /\ exec direct_pattern (errorText context) = None
        /\ description (createCommandFix a) = "Install or add unknown to PATH").
Proof.
  intros H Ht.
  destruct (detect_some _ _ H) as [_ [[_ ->]|(C & p & m & _ & _ & Hf & ->)]];
    [discriminate Ht|].
  cbn [type createAnalysis] in Ht. subst C. cbn [message createAnalysis].
  set (text := errorText context) in *.
  assert (Hsplit : scan_order
                   = (firstn 17 scan_order
                      ++ [(COMMAND, direct_pattern); (COMMAND, bash_pattern);
                          (COMMAND, zsh_pattern)])%list) by reflexivity.
  rewrite Hsplit, first_hit_app in Hf.
  destruct (first_hit (firstn 17 scan_order) text) as [[C' m']|] eqn:Hearly.
  { exfalso. injection Hf as -> _.
    destruct (first_hit_in _ _ _ _ Hearly) as (q & Hq & _).
    assert (Hall : forallb (fun e => negb match fst e with COMMAND => true | _ => false end)
                     (firstn 17 scan_order) = true) by (vm_compute; reflexivity).
    rewrite forallb_forall in Hall. specialize (Hall _ Hq). discriminate Hall. }
  cbn [first_hit] in Hf.
  destruct (exec direct_pattern text) as [m1|] eqn:H1.
  - injection Hf as <-. left.
    destruct (exec_sound _ _ _ H1) as [_ Hm].
    unfold direct_pattern in Hm. cbn [cat any1 matched] in Hm.
    destruct Hm as (m0 & X & a1 & a2 & -> & (-> & _) & (a3 & (Hne & Hall & _) & _) & _).
    rewrite all_in_dot_one_line in Hall.
    exists X. split; [reflexivity|]. split; [exact Hne|]. split; [exact Hall|].
    unfold createCommandFix. cbn [description message createAnalysis].
    rewrite (commandRe_direct X Hne Hall).
    cbn [group_of mbind option_bind group caps capture Nat.eqb or_else].
    destruct X; [congruence | reflexivity].
  - destruct (exec bash_pattern text) as [m2|] eqn:H2.
    + injection Hf as <-. right.
      destruct (exec_sound _ _ _ H2) as [Hsub Hm].
      unfold bash_pattern in Hm. cbn [cat any1 matched] in Hm.
      destruct Hm as (m0 & m3 & a1 & a2 & Hw & (-> & _) & Hrest & _).
      destruct Hrest as (X & m4 & a3 & a4 & -> & _ & (-> & _) & _).
      exists X. split; [exact Hw|]. split; [reflexivity|].
      unfold createCommandFix. cbn [description message createAnalysis].
      assert (Hno : exec commandRe (whole m2) = None).
      { destruct (exec commandRe (whole m2)) eqn:Hc; [|reflexivity]. exfalso.
        apply (direct_pattern_in_part (whole m2) text Hsub); [|exact H1].
        unfold direct_pattern. fold commandRe. congruence. }
      rewrite Hno. reflexivity.
    + exfalso. destruct (exec zsh_pattern text) as [m3|] eqn:H3; [|discriminate Hf].
      destruct (exec_sound _ _ _ H3) as [(before & behind & Htext) Hm].
      unfold zsh_pattern in Hm. cbn [cat any1 matched] in Hm.
      destruct Hm as (m0 & X & a1 & a2 & Hw & (-> & _) & (a3 & (Hne & Hall & _) & _) & _).
      destruct X as [|c X]; [congruence|].
      cbn [Text.all_in] in Hall. apply andb_true_iff in Hall as [Hc _].
      assert (Hfound : exec direct_pattern text <> None).
      { rewrite Htext, Hw.
        replace (before +:+ ("zsh: command not found: " +:+ String c X) +:+ behind)
          with ((before +:+ "zsh: ") +:+ "command not found: "
                +:+ String c (X +:+ behind)).
        - apply direct_pattern_complete, Hc.
        - rewrite !append_assoc. reflexivity. }
      congruence.
Qed.

End CommandDiagnosis.

(** ** Witnesses and the permission fix *)

Section Witnesses.
Import ErrorDetector DebugEngine CommandExecutor.

Lemma detect_file_truthy context a f :
  detect context = Some a -> file a = Some f -> Js.truthy f = true.
Proof.
  intros H Hf.
  destruct (detect_some _ _ H) as [_ [[_ ->]|(C & p & m & _ & _ & _ & ->)]];
    [discriminate Hf|].
  unfold createAnalysis in Hf. cbn [file] in Hf.
  destruct (exec fileRe (errorText context)) as [fm|] eqn:Hfm; [|discriminate Hf].
  destruct (fileRe_captures _ _ Hfm) as (f0 & d & Hg & _ & Hne & _).
  rewrite Hg in Hf. injection Hf as <-. destruct f0; [congruence | reflexivity].
Qed.

(** X28. Built for a diagnosis of the classifier that names a file, the
    deferred operation of the permission fix runs exactly one command,
    [chmod +x] followed by that file, and ends as the command ends; built for
    one without a file it does nothing. *)
Theorem permission_fix_chmod (env : Env) (context : DebugContext) (a : ErrorAnalysis)
    (h : history) :
  detect context = Some a ->
  apply (createPermissionFix env a) h
  = match file a with
    | Some f =>
        (env_exec env h ("chmod +x " +:+ f) None,
         ExecAsync ("chmod +x " +:+ f) None (env_exec env h ("chmod +x " +:+ f) None) :: h)
    | None => (Ok tt, h)
    end.
Proof.
  intros H. cbn [apply createPermissionFix].
  destruct (file a) as [f|] eqn:Hf; [|reflexivity].
  rewrite (detect_file_truthy _ _ _ H Hf). reflexivity.
Qed.

Lemma permission_fix_chmod_witness :
  exists a,
    detect denied_script = Some a
    /\ type a = PERMISSION
    /\ apply (createPermissionFix calm a) []
       = (Ok tt, [ExecAsync "chmod +x /srv/deploy.sh" None (Ok tt)]).
Proof.
  destruct (detect denied_script) as [a|] eqn:H; [|vm_compute in H; discriminate H].
  exists a. split; [reflexivity|].
  rewrite (permission_fix_chmod calm denied_script a [] H).
  vm_compute in H. injection H as <-. split; reflexivity.
Defined.

Lemma command_diagnosis_fix_witness :
  exists a,
    detect gitx_context = Some a
    /\ type a = COMMAND
    /\ ((exists X,
           message a = "command not found: " +:+ X
           /\ X <> "" /\ one_line X = true
           /\ description (createCommandFix a) = "Install or add " +:+ X +:+ " to PATH")
        \/ (exists X,
              message a = "bash: " +:+ X +:+ ": command not found"
              /\ exec direct_pattern (errorText gitx_context) = None
              /\ description (createCommandFix a) = "Install or add unknown to PATH")).
Proof.
  destruct (detect gitx_context) as [a|] eqn:H; [|vm_compute in H; discriminate H].
  assert (Ht : type a = COMMAND)
    by (vm_compute in H; injection H as <-; reflexivity).
  exists a. split; [reflexivity|]. split; [exact Ht|].
  apply (command_diagnosis_fix gitx_context a H Ht).
Defined.

Lemma executed_context_diagnosis_witness :
  exists r a,
    executeCommand shell "node app.js" None = Ok r
    /\ exitCode r = 2
    /\ detect (createDebugContext shell "node app.js" r) = Some a
    /\ message a <> "".
Proof.
  destruct (executeCommand shell "node app.js" None) as [r|e] eqn:Hrun;
    [|vm_compute in Hrun; discriminate Hrun].
  destruct (detect (createDebugContext shell "node app.js" r)) as [a|] eqn:Hd.
  - exists r, a. split; [reflexivity|].
    split; [vm_compute in Hrun; injection Hrun as <-; reflexivity|].
    split; [exact Hd|].
    apply (proj2 (proj2 (executed_context_diagnosis shell "node app.js" r None Hrun)) a Hd).
  - vm_compute in Hrun. injection Hrun as <-. vm_compute in Hd. discriminate Hd.
Defined.

Lemma captureLastCommand_result_witness :
  captureLastCommand shell = None.
Proof.
  apply (proj2 (captureLastCommand_result shell)). vm_compute. left. discriminate.
Defined.

Lemma analyzeError_gateway_failure_witness :
  let st := after mute (CreateSession left_pad_context) fresh in
  exists st',
    analyzeError mute the_id st = (Throw (Foreign "ollama" "connection reset"), st')
    /\ sessions st' = sessions st.
Proof.
  intros st.
  destruct (sessions st !! the_id) as [s|] eqn:Hs; [|vm_compute in Hs; discriminate Hs].
  destruct (detect (context s)) as [a0|] eqn:Hd;
    [|vm_compute in Hs; injection Hs as <-; vm_compute in Hd; discriminate Hd].
  eexists. split.
  - apply (analyzeError_gateway_failure mute the_id st s a0
             (Foreign "ollama" "connection reset")
             (snd (OllamaService.analyzeError mute (errorText (context s))
                     (JSON.stringify_origin (command (context s))
                        (workingDirectory (context s))) None (world st))) Hs Hd).
    vm_compute in Hs. injection Hs as <-. vm_compute. reflexivity.
  - reflexivity.
Defined.

Lemma analyzeError_model_missing_witness :
  let st := after mistral_only (CreateSession left_pad_context) fresh in
  fst (analyzeError mistral_only the_id st)
  = Throw (Error "Model llama3.2:latest not found. Please pull it first.").
Proof.
  intros st.
  destruct (sessions st !! the_id) as [s|] eqn:Hs; [|vm_compute in Hs; discriminate Hs].
  rewrite (analyzeError_model_missing mistral_only the_id st s Hs);
    [reflexivity | | reflexivity].
  vm_compute in Hs. injection Hs as <-. vm_compute. discriminate.
Defined.

Lemma generateFixes_needs_analysis_witness :
  generateFixes calm the_id left_pad
  = (Throw (Error "No analysis available for session"), left_pad).
Proof.
  apply (generateFixes_needs_analysis calm the_id left_pad). right.
  destruct (sessions left_pad !! the_id) as [s|] eqn:Hs;
    [|vm_compute in Hs; discriminate Hs].
  exists s. split; [reflexivity|].
  vm_compute in Hs. injection Hs as <-. reflexivity.
Defined.

Lemma generateFixes_by_rule_witness :
  exists f st',
    generateFixes calm the_id denied = (Ok [f], st')
    /\ world st' = world denied
    /\ (fix_type f, fix_confidence f) = (FixType.PERMISSION_CHANGE, 0.7%Q).
Proof.
  destruct (sessions denied !! the_id) as [s|] eqn:Hs;
    [|vm_compute in Hs; discriminate Hs].
  destruct (analysis s) as [a|] eqn:Ha;
    [|vm_compute in Hs; injection Hs as <-; discriminate Ha].
  assert (Ht : type a = PERMISSION)
    by (vm_compute in Hs; injection Hs as <-; vm_compute in Ha; injection Ha as <-;
        reflexivity).
  destruct (generateFixes_by_rule calm the_id denied s a Hs Ha (or_intror (or_intror Ht)))
    as (f & st' & Hrun & Hw & _ & _ & Hk).
  exists f, st'. rewrite Ht in Hk. auto.
Defined.

Lemma generateFixes_blank_answer_witness :
  exists st',
    generateFixes speechless the_id (puzzled speechless) = (Ok [], st')
    /\ forall fixIndex,
         applyFix the_id fixIndex st' = (Throw (Error "Fix not found"), st').
Proof.
  set (st := puzzled speechless).
  destruct (sessions st !! the_id) as [s|] eqn:Hs; [|vm_compute in Hs; discriminate Hs].
  destruct (analysis s) as [a|] eqn:Ha;
    [|vm_compute in Hs; injection Hs as <-; discriminate Ha].
  destruct (generateFixes_blank_answer speechless the_id st s a "   "
              (snd (OllamaService.generateResponse speechless (fix_prompt s) None
                      (world st))) Hs Ha)
    as (st' & Hrun & _ & Hlater).
  - vm_compute in Hs. injection Hs as <-. vm_compute in Ha. injection Ha as <-.
    reflexivity.
  - vm_compute in Hs. injection Hs as <-. vm_compute. reflexivity.
  - reflexivity.
  - exists st'. auto.
Defined.

Lemma generateFixes_suggested_witness :
  exists f st',
    generateFixes helpful the_id (puzzled helpful) = (Ok [f], st')
    /\ description f = "Run suggested fix: npm run build"
    /\ apply f [] = (Ok tt, [ExecAsync "npm run build" (Some "/test") (Ok tt)]).
Proof.
  set (st := puzzled helpful).
  destruct (sessions st !! the_id) as [s|] eqn:Hs; [|vm_compute in Hs; discriminate Hs].
  destruct (analysis s) as [a|] eqn:Ha;
    [|vm_compute in Hs; injection Hs as <-; discriminate Ha].
  destruct (generateFixes_suggested helpful the_id st s a (" npm run build" +:+ nl)
              (snd (OllamaService.generateResponse helpful (fix_prompt s) None
                      (world st))) Hs Ha)
    as (f & st' & Hrun & _ & _ & _ & Hdesc & Happly).
  - vm_compute in Hs. injection Hs as <-. vm_compute in Ha. injection Ha as <-.
    reflexivity.
  - vm_compute in Hs. injection Hs as <-. vm_compute. reflexivity.
  - vm_compute. discriminate.
  - exists f, st'. split; [exact Hrun|]. split; [rewrite Hdesc; reflexivity|].
    rewrite Happly. vm_compute in Hs. injection Hs as <-. reflexivity.
Defined.

Lemma applyFix_success_witness :
  let st := ready calm "Error: Cannot find module 'left-pad'" in
  exists st',
    applyFix the_id 0 st = (Ok tt, st')
    /\ applied <$> (sessions st' !! the_id) = Some true
    /\ times_run the_id 0 st' = S (times_run the_id 0 st).
Proof.
  intros st.
  destruct (sessions st !! the_id) as [s|] eqn:Hs; [|vm_compute in Hs; discriminate Hs].
  destruct (selected (Some s) 0) as [f|] eqn:Hsel;
    [|vm_compute in Hs; injection Hs as <-; vm_compute in Hsel; discriminate Hsel].
  destruct (applyFix_success the_id 0 st s f (snd (apply f (world st))) Hs Hsel)
    as (st' & Hrun & _ & Hl & _ & Ht).
  - vm_compute in Hs. injection Hs as <-. vm_compute in Hsel. injection Hsel as <-.
    vm_compute. reflexivity.
  - exists st'. split; [exact Hrun|]. split; [rewrite Hl; reflexivity | exact Ht].
Defined.

Lemma session_kept_witness :
  let st := ready calm "Error: Cannot find module 'left-pad'" in
  exists s s',
    sessions st !! the_id = Some s
    /\ sessions (after calm (ApplyFix the_id 0) st) !! the_id = Some s'
    /\ kept s s'.
Proof.
  intros st.
  destruct (sessions st !! the_id) as [s|] eqn:Hs; [|vm_compute in Hs; discriminate Hs].
  destruct (session_kept calm (ApplyFix the_id 0) st the_id s Hs) as (s' & Hs' & Hk).
  - intros context Hc. discriminate Hc.
  - exists s, s'. auto.
Defined.

End Witnesses.
